(** * LibratusLounge: the Worker entry point, the AgentManager Durable Object
      and the decision-cache design, embedded in Rocq.

    Sources embedded here:
    - [src/src/index.ts]                 the Worker's [fetch] handler;
    - [src/unnamed/part_004]             [AgentManager] ([fetch], [listAgents], [createAgent]);
    - [src/docs/ARCHITECTURE.md]         [generateCacheKey] (section "Cache Key Generation")
                                         and the cache TTL table;
    - [src/unnamed/part_001]             the declarations of [CostManager] and [DecisionCache].

    JavaScript values are modelled as the language has them: numbers are IEEE 754
    binary64 ([PrimFloat.float]), strings are byte strings holding UTF-8 text,
    objects are property lists in insertion order, and an operation that can throw
    returns a [Completion]. *)

From Stdlib Require Import ZArith List String Ascii Bool Lia QArith Qround Floats.
From Stdlib Require Import DecimalString.
From Stdlib Require DecimalPos DecimalZ.
From stdpp Require Import base gmap strings list.

Set Warnings "-register-all,-inexact-float".

Local Open Scope string_scope.
Local Open Scope Z_scope.

(** ** The JavaScript runtime pieces the code relies on *)

Module Js.

(** A JSON-shaped JavaScript value: what [JSON.parse] can produce and what the
    object literals of the code hold.  An object keeps its own enumerable
    properties in enumeration order. *)
Inductive JsValue : Type :=
  | JNull
  | JBool (b : bool)
  | JNum (x : float)
  | JStr (s : string)
  | JArr (items : list JsValue)
  | JObj (props : list (string * JsValue)).

(** What a [throw] carries: an [Error] instance (its [name] and [message]) or any
    other value. *)
Inductive Thrown : Type :=
  | ThrownError (name message : string)
  | ThrownValue (v : JsValue).

(** The outcome of evaluating an expression that may throw. *)
Inductive Completion (A : Type) : Type :=
  | Normal (a : A)
  | Throw (t : Thrown).
Arguments Normal {A} a.
Arguments Throw {A} t.

Definition bind {A B} (c : Completion A) (k : A -> Completion B) : Completion B :=
  match c with
  | Normal a => k a
  | Throw t => Throw t
  end.

(** [try { c } catch (error) { h error }] *)
Definition try_catch {A} (c : Completion A) (h : Thrown -> Completion A) : Completion A :=
  match c with
  | Normal a => Normal a
  | Throw t => h t
  end.

(** An object literal or a spread assigns properties one by one: an existing key
    keeps its position and takes the new value, a new key goes last. *)
Fixpoint obj_set {V} (k : string) (v : V) (o : list (string * V)) : list (string * V) :=
  match o with
  | [] => [(k, v)]
  | (k', v') :: o' => if String.eqb k k' then (k, v) :: o' else (k', v') :: obj_set k v o'
  end.

(** [{ ...dst, ...src }] on top of the properties already written. *)
Definition obj_spread {V} (dst src : list (string * V)) : list (string * V) :=
  fold_left (fun o kv => obj_set (fst kv) (snd kv) o) src dst.

Fixpoint obj_get {V} (k : string) (o : list (string * V)) : option V :=
  match o with
  | [] => None
  | (k', v) :: o' => if String.eqb k k' then Some v else obj_get k o'
  end.

(** *** Strings *)

Definition quote : ascii := "034"%char.
Definition backslash : ascii := "092"%char.

Definition str1 (c : ascii) : string := String c EmptyString.

Fixpoint repeat_string (s : string) (n : nat) : string :=
  match n with
  | O => EmptyString
  | S n' => s +:+ repeat_string s n'
  end.

Fixpoint join (sep : string) (l : list string) : string :=
  match l with
  | [] => EmptyString
  | [s] => s
  | s :: l' => s +:+ sep +:+ join sep l'
  end.

(** Decimal digits of an integer, as the template literal [`${n}`] prints an
    integral Number below 10^21. *)
Definition Z_to_decimal (z : Z) : string := NilZero.string_of_int (Z.to_int z).

(** [String(n).padStart(width, '0')] for a natural number. *)
Definition pad_decimal (width : nat) (z : Z) : string :=
  let s := Z_to_decimal z in
  repeat_string "0" (width - String.length s) +:+ s.

Definition hex_digit (n : Z) : ascii :=
  ascii_of_nat (Z.to_nat (if n <? 10 then 48 + n else 87 + n)).

(** ASCII lower-casing, as the Fetch standard's byte-lowercase. *)
Definition lower_ascii (c : ascii) : ascii :=
  let n := Z.of_nat (nat_of_ascii c) in
  if (65 <=? n) && (n <=? 90) then ascii_of_nat (Z.to_nat (n + 32)) else c.

Fixpoint toLowerCase (s : string) : string :=
  match s with
  | EmptyString => EmptyString
  | String c s' => String (lower_ascii c) (toLowerCase s')
  end.

(** QuoteJSONString (ECMA-262 25.5.2.3) on UTF-8 text: the two-character escapes,
    [\u00XX] for the other control characters, every other byte unchanged. *)
Definition escape_char (c : ascii) : string :=
  let n := Z.of_nat (nat_of_ascii c) in
  if n =? 8 then str1 backslash +:+ "b"
  else if n =? 9 then str1 backslash +:+ "t"
  else if n =? 10 then str1 backslash +:+ "n"
  else if n =? 12 then str1 backslash +:+ "f"
  else if n =? 13 then str1 backslash +:+ "r"
  else if n =? 34 then str1 backslash +:+ str1 quote
  else if n =? 92 then str1 backslash +:+ str1 backslash
  else if n <? 32 then
    str1 backslash +:+ "u00" +:+ str1 (hex_digit (n / 16)) +:+ str1 (hex_digit (n mod 16))
  else str1 c.

Fixpoint escape_string (s : string) : string :=
  match s with
  | EmptyString => EmptyString
  | String c s' => escape_char c +:+ escape_string s'
  end.

Definition QuoteJSONString (s : string) : string :=
  str1 quote +:+ escape_string s +:+ str1 quote.

(** *** Numbers: [Number::toString] (ECMA-262 6.1.6.1.20) and [Math.round] *)

(** [b^n] for an integer exponent of either sign. *)
Definition pow_Q (b n : Z) : Q :=
  if 0 <=? n then inject_Z (b ^ n) else (1 # Z.to_pos (b ^ (- n)))%Q.

(** The value of the finite float with significand [m] and exponent [e]. *)
Definition float_value (m : positive) (e : Z) : Q :=
  (inject_Z (Zpos m) * pow_Q 2 e)%Q.

(** Half the distance to the next float below: it is halved again at a power of
    two, where the binade changes. *)
Definition half_gap_down (m : positive) (e : Z) : Q :=
  if (Zpos m =? 2 ^ 52) && (-1074 <? e) then pow_Q 2 (e - 2) else pow_Q 2 (e - 1).

Definition Qlt_bool (a b : Q) : bool := negb (Qle_bool b a).

(** "The Number value for [c] is [x]": [c] rounds to the float [m * 2^e] under
    round-to-nearest, ties to the even significand. *)
Definition reads_back (m : positive) (e : Z) (c : Q) : bool :=
  let x := float_value m e in
  let lo := (x - half_gap_down m e)%Q in
  let hi := (x + pow_Q 2 (e - 1))%Q in
  if Z.even (Zpos m) then Qle_bool lo c && Qle_bool c hi
  else Qlt_bool lo c && Qlt_bool c hi.

Fixpoint find_n (fuel : nat) (x : Q) (n : Z) : Z :=
  match fuel with
  | O => n
  | S fuel' => if Qle_bool (pow_Q 10 n) x then find_n fuel' x (n + 1) else n
  end.

(** The [n] with [10^(n-1) <= x < 10^n]. *)
Definition decimal_exponent (m : positive) (e : Z) : Z :=
  let bits := Z.log2 (Zpos m) + e in
  find_n 6 (float_value m e) ((bits * 30103) / 100000 - 1).

(** The [k]-digit decimals next to [x]: the one that reads back as [x], the
    closer one if both do, the even one on a tie. *)
Definition digits_for (m : positive) (e n k : Z) : option (Z * Z) :=
  let x := float_value m e in
  let scale := pow_Q 10 (n - k) in
  let s_lo := Qfloor (x / scale) in
  let s_hi := s_lo + 1 in
  let c_lo := (inject_Z s_lo * scale)%Q in
  let c_hi := (inject_Z s_hi * scale)%Q in
  let lo := (s_lo, n) in
  let hi := if s_hi =? 10 ^ k then (10 ^ (k - 1), n + 1) else (s_hi, n) in
  match (10 ^ (k - 1) <=? s_lo) && reads_back m e c_lo, reads_back m e c_hi with
  | true, true =>
      match ((x - c_lo) ?= (c_hi - x))%Q with
      | Lt => Some lo
      | Gt => Some hi
      | Eq => if Z.even s_lo then Some lo else Some hi
      end
  | true, false => Some lo
  | false, true => Some hi
  | false, false => None
  end.

Fixpoint shortest_from (fuel : nat) (m : positive) (e n k : Z) : Z * Z :=
  match fuel with
  | O => (Qfloor (float_value m e / pow_Q 10 (n - k)), n)
  | S fuel' =>
      match digits_for m e n k with
      | Some r => r
      | None => shortest_from fuel' m e n (k + 1)
      end
  end.

(** The digits [s] and the exponent [n] of step 5 of [Number::toString]: the
    fewest digits that read back as the float. Seventeen always suffice. *)
Definition shortest (m : positive) (e : Z) : Z * Z :=
  shortest_from 17 m e (decimal_exponent m e) 1.

Definition take_string (n : nat) (s : string) : string := String.substring 0 n s.
Definition drop_string (n : nat) (s : string) : string :=
  String.substring n (String.length s - n) s.

(** Steps 6 to 12 of [Number::toString]: fixed notation for [-6 < n <= 21],
    exponential notation otherwise. *)
Definition format_decimal (sn : Z * Z) : string :=
  let '(s, n) := sn in
  let digits := Z_to_decimal s in
  let k := Z.of_nat (String.length digits) in
  if (k <=? n) && (n <=? 21) then
    digits +:+ repeat_string "0" (Z.to_nat (n - k))
  else if (0 <? n) && (n <=? 21) then
    take_string (Z.to_nat n) digits +:+ "." +:+ drop_string (Z.to_nat n) digits
  else if (-6 <? n) && (n <=? 0) then
    "0." +:+ repeat_string "0" (Z.to_nat (- n)) +:+ digits
  else
    let exponent := (if 0 <? n - 1 then "+" else "-") +:+ Z_to_decimal (Z.abs (n - 1)) in
    if k =? 1 then digits +:+ "e" +:+ exponent
    else take_string 1 digits +:+ "." +:+ drop_string 1 digits +:+ "e" +:+ exponent.

Definition Number_toString (x : float) : string :=
  match Prim2SF x with
  | S754_nan => "NaN"
  | S754_zero _ => "0"
  | S754_infinity false => "Infinity"
  | S754_infinity true => "-Infinity"
  | S754_finite sign m e =>
      (if sign then "-" else "") +:+ format_decimal (shortest m e)
  end.

Definition Number_isFinite (x : float) : bool :=
  match Prim2SF x with
  | S754_zero _ | S754_finite _ _ _ => true
  | S754_nan | S754_infinity _ => false
  end.

(** The float of an integer below 2^53 in magnitude (exact). *)
Definition float_of_Z (z : Z) : float :=
  let a := PrimFloat.of_uint63 (Uint63.of_Z (Z.abs z)) in
  if z <? 0 then PrimFloat.opp a else a.

(** [Math.round] (ECMA-262 21.3.2.28): the nearest integer, a tie towards
    +Infinity; NaN, infinities, zeros and integers are returned as they are, and a
    negative number that rounds to zero gives -0. *)
Definition Math_round (x : float) : float :=
  match Prim2SF x with
  | S754_finite sign m e =>
      if 0 <=? e then x
      else
        let signed := if sign then Zneg m else Zpos m in
        let r := (2 * signed + 2 ^ (- e)) / 2 ^ (1 - e) in
        if r =? 0 then (if sign then PrimFloat.opp PrimFloat.zero else PrimFloat.zero)
        else float_of_Z r
  | _ => x
  end.

(** *** [JSON.stringify] (ECMA-262 25.5.2) without a replacer or an indent *)

Fixpoint JSON_stringify (v : JsValue) : string :=
  match v with
  | JNull => "null"
  | JBool b => if b then "true" else "false"
  | JNum x => if Number_isFinite x then Number_toString x else "null"
  | JStr s => QuoteJSONString s
  | JArr items => "[" +:+ join "," (map JSON_stringify items) +:+ "]"
  | JObj props =>
      "{" +:+
      join "," (map (fun kv => QuoteJSONString (fst kv) +:+ ":" +:+ JSON_stringify (snd kv)) props)
      +:+ "}"
  end.

(** *** [Date.prototype.toISOString] (ECMA-262 21.4.4.36) *)

Definition msPerDay : Z := 86400000.

(** Year, month (1 to 12) and day of the month of a day number counted from
    1970-01-01, in the proleptic Gregorian calendar. *)
Definition civil_from_days (days : Z) : Z * Z * Z :=
  let z := days + 719468 in
  let era := z / 146097 in
  let doe := z - era * 146097 in
  let yoe := (doe - doe / 1460 + doe / 36524 - doe / 146096) / 365 in
  let doy := doe - (365 * yoe + yoe / 4 - yoe / 100) in
  let mp := (5 * doy + 2) / 153 in
  let d := doy - (153 * mp + 2) / 5 + 1 in
  let m := if mp <? 10 then mp + 3 else mp - 9 in
  let y := yoe + era * 400 + (if m <=? 2 then 1 else 0) in
  (y, m, d).

(** [t] is a time value: milliseconds since the epoch, an integer. *)
Definition Date_toISOString (t : Z) : string :=
  let '(y, m, d) := civil_from_days (t / msPerDay) in
  let ms := t mod msPerDay in
  let year :=
    if (0 <=? y) && (y <=? 9999) then pad_decimal 4 y
    else (if y <? 0 then "-" else "+") +:+ pad_decimal 6 (Z.abs y) in
  year +:+ "-" +:+ pad_decimal 2 m +:+ "-" +:+ pad_decimal 2 d +:+ "T" +:+
  pad_decimal 2 (ms / 3600000) +:+ ":" +:+ pad_decimal 2 (ms / 60000 mod 60) +:+ ":" +:+
  pad_decimal 2 (ms / 1000 mod 60) +:+ "." +:+ pad_decimal 3 (ms mod 1000) +:+ "Z".

(** A float that is NaN or an infinity. *)
Definition nonfinite (x : float) : Prop :=
  Prim2SF x = S754_nan \/ exists sign, Prim2SF x = S754_infinity sign.

End Js.

(** ** The Fetch API objects the handlers build: [Headers], [Request], [Response] *)

Module Http.
Import Js.

(** A header list is kept as the pairs appended to it, in order, each name
    byte-lowercased: a [Headers] object compares and reports names that way. *)

(** The characters of an HTTP token (RFC 9110, 5.6.2). *)
Definition is_token_char (c : ascii) : bool :=
  let n := Z.of_nat (nat_of_ascii c) in
  ((48 <=? n) && (n <=? 57)) || ((65 <=? n) && (n <=? 90)) || ((97 <=? n) && (n <=? 122))
  || existsb (Z.eqb n) [33; 35; 36; 37; 38; 39; 42; 43; 45; 46; 94; 95; 96; 124; 126].

Fixpoint all_chars (p : ascii -> bool) (s : string) : bool :=
  match s with
  | EmptyString => true
  | String c s' => p c && all_chars p s'
  end.

(** A header name is a non-empty HTTP token. *)
Definition valid_name (name : string) : bool :=
  negb (String.eqb name "") && all_chars is_token_char name.

Definition is_http_whitespace (c : ascii) : bool :=
  existsb (Z.eqb (Z.of_nat (nat_of_ascii c))) [9; 10; 13; 32].

Fixpoint strip_leading (s : string) : string :=
  match s with
  | EmptyString => EmptyString
  | String c s' => if is_http_whitespace c then strip_leading s' else s
  end.

Fixpoint strip_trailing (s : string) : string :=
  match s with
  | EmptyString => EmptyString
  | String c s' =>
      match strip_trailing s' with
      | EmptyString => if is_http_whitespace c then EmptyString else str1 c
      | rest => String c rest
      end
  end.

(** Normalizing a header value strips HTTP whitespace at both ends. *)
Definition normalize_value (v : string) : string := strip_trailing (strip_leading v).

(** A header value holds no NUL, LF or CR. *)
Definition valid_value (v : string) : bool :=
  all_chars (fun c => negb (existsb (Z.eqb (Z.of_nat (nat_of_ascii c))) [0; 10; 13])) v.

(** [Headers.prototype.append]: a [TypeError] for a malformed name or value. The
    text of the message is the runtime's own. *)
Definition Headers_append (name value : string) (hs : list (string * string))
  : Completion (list (string * string)) :=
  let value := normalize_value value in
  if valid_name name && valid_value value
  then Normal (hs ++ [(toLowerCase name, value)])%list
  else Throw (ThrownError "TypeError" "Invalid header name or value").

(** Filling a [Headers] from a record: every property appended in order. *)
Fixpoint Headers_fill (record : list (string * string)) (hs : list (string * string))
  : Completion (list (string * string)) :=
  match record with
  | [] => Normal hs
  | (name, value) :: record' => bind (Headers_append name value hs) (Headers_fill record')
  end.

(** [Headers.prototype.get]: the values of the name, compared without case, joined
    by a comma and a space; [None] is JavaScript's [null]. *)
Definition Headers_get (name : string) (hs : list (string * string)) : option string :=
  match List.filter (fun h => String.eqb (fst h) (toLowerCase name)) hs with
  | [] => None
  | found => Some (join ", " (map snd found))
  end.

Definition Headers_has (name : string) (hs : list (string * string)) : bool :=
  existsb (fun h => String.eqb (fst h) (toLowerCase name)) hs.

(** The parsed form of [request.url]. A [Request] always holds a valid absolute
    URL, so [new URL(request.url)] does not throw. *)
Record URL : Type := { href : string; pathname : string }.

(** A request. [json] is what [request.json()] settles to: [Some v] when the body
    text parses as JSON to [v], [None] when it does not (the promise rejects with
    a [SyntaxError]). *)
Record Request : Type := { method : string; url : URL; json : option JsValue }.

Record ResponseInit : Type := {
  init_status : option Z;
  init_headers : list (string * string)
}.

Record Response : Type := {
  status : Z;
  body : option string;
  headers : list (string * string)
}.

Definition null_body_status (st : Z) : bool := existsb (Z.eqb st) [101; 103; 204; 205; 304].

(** [new Response(body, init)] (Fetch standard, "initialize a response"): the
    status defaults to 200 and must lie in 200..599; a body is refused with a
    null-body status; a string body brings [text/plain;charset=UTF-8] as its
    content type unless the headers name one. *)
Definition new_Response (body : option string) (init : ResponseInit) : Completion Response :=
  let st := match init_status init with Some st => st | None => 200 end in
  if (st <? 200) || (599 <? st)
  then Throw (ThrownError "RangeError" "The status provided is outside the range [200, 599]")
  else
    bind (Headers_fill (init_headers init) []) (fun hs =>
      match body with
      | None => Normal {| status := st; body := None; headers := hs |}
      | Some text =>
          if null_body_status st
          then Throw (ThrownError "TypeError" "Response with null body status cannot have body")
          else
            Normal {| status := st;
                      body := Some text;
                      headers :=
                        if Headers_has "Content-Type" hs then hs
                        else (hs ++ [("content-type", "text/plain;charset=UTF-8")])%list |}
      end).

End Http.

(** ** [src/src/index.ts]: the Worker *)

Module Worker.
Import Js Http.

(** The environment bindings [fetch] reads. [ENVIRONMENT] is [None] when the
    variable is not configured ([undefined] at run time). *)
Record Env : Type := { ENVIRONMENT : option string }.

(** [value || fallback] on a string that may be [undefined]: the fallback is taken
    for [undefined] and for the empty string. *)
Definition or_else (value : option string) (fallback : string) : string :=
  match value with
  | Some s => if String.eqb s "" then fallback else s
  | None => fallback
  end.

Definition corsHeaders : list (string * string) :=
  [ ("Access-Control-Allow-Origin", "*");
    ("Access-Control-Allow-Methods", "GET, POST, PUT, DELETE, OPTIONS");
    ("Access-Control-Allow-Headers", "Content-Type, Authorization");
    ("Access-Control-Max-Age", "86400") ].

(** [{ 'Content-Type': 'application/json', ...corsHeaders }] *)
Definition jsonHeaders : list (string * string) :=
  obj_spread [("Content-Type", "application/json")] corsHeaders.

(** The body of the [try] block: the [switch] on [url.pathname]. [now] is the
    time value [new Date()] reads. *)
Definition route (request : Request) (env : Env) (now : Z) : Completion Response :=
  let path := pathname (url request) in
  if String.eqb path "/" then
    new_Response
      (Some (JSON_stringify (JObj [ ("name", JStr "LibratusLounge");
                                    ("version", JStr "0.1.0");
                                    ("status", JStr "ready");
                                    ("message", JStr "AI Poker Agents API") ])))
      {| init_status := None; init_headers := jsonHeaders |}
  else if String.eqb path "/health" then
    new_Response
      (Some (JSON_stringify (JObj [ ("status", JStr "healthy");
                                    ("timestamp", JStr (Date_toISOString now));
                                    ("environment", JStr (or_else (ENVIRONMENT env) "development")) ])))
      {| init_status := None; init_headers := jsonHeaders |}
  else
    new_Response
      (Some (JSON_stringify (JObj [ ("error", JStr "Not Found");
                                    ("message", JStr ("Route " +:+ path +:+ " not found")) ])))
      {| init_status := Some 404; init_headers := jsonHeaders |}.

(** [error instanceof Error ? error.message : 'Unknown error'] *)
Definition error_message (error : Thrown) : string :=
  match error with
  | ThrownError _ message => message
  | ThrownValue _ => "Unknown error"
  end.

(** The [catch] block ([console.error] only writes to the log). *)
Definition internalServerError (error : Thrown) : Completion Response :=
  new_Response
    (Some (JSON_stringify (JObj [ ("error", JStr "Internal Server Error");
                                  ("message", JStr (error_message error)) ])))
    {| init_status := Some 500; init_headers := jsonHeaders |}.

Definition fetch (request : Request) (env : Env) (now : Z) : Completion Response :=
  if String.eqb (method request) "OPTIONS" then
    new_Response None {| init_status := None; init_headers := corsHeaders |}
  else
    try_catch (route request env now) internalServerError.

(** The header list [jsonHeaders] fills a response with: the names lower-cased. *)
Definition jsonResponseHeaders : list (string * string) :=
  [ ("content-type", "application/json");
    ("access-control-allow-origin", "*");
    ("access-control-allow-methods", "GET, POST, PUT, DELETE, OPTIONS");
    ("access-control-allow-headers", "Content-Type, Authorization");
    ("access-control-max-age", "86400") ].

End Worker.

(** ** [src/unnamed/part_004]: the AgentManager Durable Object *)

Module AgentManager.
Import Js Http.

(** What a [return] inside an [async] function hands over: a value, or a promise
    that was not awaited. The promise settles the function's own promise later,
    outside any [try] block the [return] stood in. *)
Inductive Returned : Type :=
  | ReturnValue (r : Response)
  | ReturnPromise (p : Completion Response).

(** A settled promise: fulfilled with a value ([Normal]) or rejected ([Throw]). *)
Definition settle (c : Completion Returned) : Completion Response :=
  match c with
  | Normal (ReturnValue r) => Normal r
  | Normal (ReturnPromise p) => p
  | Throw t => Throw t
  end.

Definition listAgents : Completion Response :=
  new_Response
    (Some (JSON_stringify (JObj [ ("agents", JArr []); ("total", JNum 0%float) ])))
    {| init_status := None; init_headers := [("Content-Type", "application/json")] |}.

(** [await request.json()]: rejects with a [SyntaxError] when the body is not JSON.
    The text of the message is the runtime's own. *)
Definition request_json (request : Request) : Completion JsValue :=
  match json request with
  | Some v => Normal v
  | None => Throw (ThrownError "SyntaxError" "Unexpected token in JSON")
  end.

(** The object literal [createAgent] serializes. [t_now] is what [Date.now()]
    reads, [t_date] the time value of the [new Date()] evaluated after it. *)
Definition createAgent_payload (config : JsValue) (t_now t_date : Z) : JsValue :=
  JObj [ ("agentId", JStr ("agent_" +:+ Z_to_decimal t_now));
         ("status", JStr "created");
         ("config", config);
         ("createdAt", JStr (Date_toISOString t_date)) ].

Definition createAgent (request : Request) (t_now t_date : Z) : Completion Response :=
  bind (request_json request) (fun config =>
    new_Response
      (Some (JSON_stringify (createAgent_payload config t_now t_date)))
      {| init_status := Some 201; init_headers := [("Content-Type", "application/json")] |}).

(** The [try] block of [fetch]: the [switch] on the method, then the 404 after it. *)
Definition dispatch (request : Request) (t_now t_date : Z) : Completion Returned :=
  let path := pathname (url request) in
  let notFound :=
    bind (new_Response (Some "Not found") {| init_status := Some 404; init_headers := [] |})
         (fun r => Normal (ReturnValue r)) in
  if String.eqb (method request) "GET" then
    if String.eqb path "/agents"
    then bind listAgents (fun r => Normal (ReturnValue r))
    else notFound
  else if String.eqb (method request) "POST" then
    if String.eqb path "/agents"
    then Normal (ReturnPromise (createAgent request t_now t_date))
    else notFound
  else
    bind (new_Response (Some "Method not allowed") {| init_status := Some 405; init_headers := [] |})
         (fun r => Normal (ReturnValue r)).

(** The [catch] block. *)
Definition internalError (error : Thrown) : Completion Returned :=
  bind
    (new_Response
       (Some (JSON_stringify (JObj [ ("error", JStr "Internal error");
                                     ("message", JStr (Worker.error_message error)) ])))
       {| init_status := Some 500; init_headers := [("Content-Type", "application/json")] |})
    (fun r => Normal (ReturnValue r)).

Definition fetch (request : Request) (t_now t_date : Z) : Completion Response :=
  settle (try_catch (dispatch request t_now t_date) internalError).

(** The [agentId] member of a payload, as a client reads it. *)
Definition agentIdOf (payload : JsValue) : option JsValue :=
  match payload with
  | JObj props => obj_get "agentId" props
  | _ => None
  end.

End AgentManager.

(** ** [src/docs/ARCHITECTURE.md], "Cache Key Generation": [generateCacheKey]

    The types are those of [src/agents/types.ts] as [src/unnamed/part_001]
    declares them. *)

Module Normalizer.
Import Js.

Inductive Rank : Type := RA | RK | RQ | RJ | RT | R9 | R8 | R7 | R6 | R5 | R4 | R3 | R2.
Inductive Suit : Type := Hearts | Diamonds | Clubs | Spades.
Record Card : Type := { rank : Rank; suit : Suit }.

Inductive Position : Type := UTG | MP | CO | BTN | SB | BB.

Definition Position_name (p : Position) : string :=
  match p with
  | UTG => "UTG" | MP => "MP" | CO => "CO" | BTN => "BTN" | SB => "SB" | BB => "BB"
  end.

Record BlindLevel : Type := { small : float; big : float }.

(** [PlayerInfo] and [Action] are declared nowhere in the repository: their
    values are kept as the JSON they arrive as. *)
Record GameState : Type := {
  hand : list Card;
  communityCards : list Card;
  pot : float;
  toCall : float;
  position : Position;
  players : list JsValue;
  bettingHistory : list JsValue;
  stackSize : float;
  blindLevel : BlindLevel
}.

(** The functions [generateCacheKey] calls and the repository does not define.
    Each is a function of its arguments alone; what it returns is serialized by
    [JSON.stringify], so it is a JSON-shaped value. [sha256_hex] stands for
    [createHash('sha256').update(text).digest('hex')]. *)
Class Helpers : Type := {
  bucketizeHandStrength : list Card -> list Card -> JsValue;
  encodeBettingPattern : list JsValue -> JsValue;
  bucketizeStack : float -> JsValue;
  sha256_hex : string -> string
}.

(** The object [normalized] of [generateCacheKey]. *)
Record NormalizedFeatures : Type := {
  handStrength : JsValue;
  potOdds : float;
  featurePosition : Position;
  streetBettingPattern : JsValue;
  stackDepth : JsValue
}.

(** [Math.round(gameState.toCall / gameState.pot * 10)]: pot odds in tenths. *)
Definition potOddsTenths (gameState : GameState) : float :=
  Math_round (toCall gameState / pot gameState * 10)%float.

Definition normalize `{Helpers} (gameState : GameState) : NormalizedFeatures :=
  {| handStrength := bucketizeHandStrength (hand gameState) (communityCards gameState);
     potOdds := (potOddsTenths gameState / 10)%float;
     featurePosition := position gameState;
     streetBettingPattern := encodeBettingPattern (bettingHistory gameState);
     stackDepth := bucketizeStack (stackSize gameState / big (blindLevel gameState))%float |}.

(** The object as [JSON.stringify] sees it: its properties in the order the
    literal wrote them. *)
Definition features_object (features : NormalizedFeatures) : JsValue :=
  JObj [ ("handStrength", handStrength features);
         ("potOdds", JNum (potOdds features));
         ("position", JStr (Position_name (featurePosition features)));
         ("streetBettingPattern", streetBettingPattern features);
         ("stackDepth", stackDepth features) ].

Definition fingerprint `{Helpers} (features : NormalizedFeatures) : string :=
  sha256_hex (JSON_stringify (features_object features)).

Definition generateCacheKey `{Helpers} (gameState : GameState) : string :=
  fingerprint (normalize gameState).

(** Two game states read alike by [generateCacheKey]: the same cards, position and
    betting history, the same pot odds once rounded to tenths, the same stack in
    big blinds. The pot, the amount to call, the stack and the blinds themselves,
    and the players, may differ. *)
Definition read_alike (s1 s2 : GameState) : Prop :=
  hand s1 = hand s2 /\
  communityCards s1 = communityCards s2 /\
  potOddsTenths s1 = potOddsTenths s2 /\
  position s1 = position s2 /\
  bettingHistory s1 = bettingHistory s2 /\
  (stackSize s1 / big (blindLevel s1))%float = (stackSize s2 / big (blindLevel s2))%float.

(** Stand-ins for the four helpers, to run [generateCacheKey] on examples: the
    number of cards seen, the number of actions, the stack depth rounded, and the
    text itself in place of its digest. *)
Definition sampleHelpers : Helpers :=
  {| bucketizeHandStrength := fun h c => JNum (float_of_Z (Z.of_nat (length h + length c)));
     encodeBettingPattern := fun actions => JNum (float_of_Z (Z.of_nat (length actions)));
     bucketizeStack := fun depth => JNum (Math_round depth);
     sha256_hex := fun text => text |}.

(** The quick-start request of [src/unnamed/part_003], with the pot at [p]. *)
Definition sampleState (p : float) : GameState :=
  {| hand := [ {| rank := RA; suit := Spades |}; {| rank := RK; suit := Diamonds |} ];
     communityCards := [];
     pot := p;
     toCall := 100%float;
     position := BTN;
     players := [];
     bettingHistory := [];
     stackSize := 1000%float;
     blindLevel := {| small := 25%float; big := 50%float |} |}.

End Normalizer.

(** ** The decision cache of the design

    The repository declares [DecisionCache] ([src/unnamed/part_001], 5.1) and
    describes its two levels and their TTLs ([src/docs/ARCHITECTURE.md], "Caching
    Strategy"), but holds no implementation of it. *)

Module CacheStore.
Import Normalizer.

(** Modelled from the spec: the actions of a Decision (section 3); the
    implementation of the agents that would produce one is missing. *)
Inductive Action : Type := Fold | Call | Raise | Check | AllIn.

(** Modelled from the spec: Decision (section 3), "{ action, amount?, confidence,
    reasoning?, latency }"; [src/unnamed/part_001] declares the same record with
    [thinkingTime] for the latency. *)
Record Decision : Type := {
  action : Action;
  amount : option Z;
  confidence : Q;
  reasoning : option string;
  latency : Z
}.

(** Modelled from the spec: "matchPrecision (exact|similar)" (section 3). *)
Inductive Precision : Type := Exact | Similar.

(** Modelled from the spec: CacheEntry (section 3); the cache that would own the
    entries is missing. *)
Record CacheEntry : Type := {
  decision : Decision;
  matchPrecision : Precision;
  confidenceAdjustment : Q;
  insertedAt : Z;
  ttl : Z
}.

(** Modelled from the spec: the constants it leaves to configuration (sections
    4.1, 4.2 and 6): the fingerprint scheme's
    version, the capacity of the fast tier, and the TTL and the confidence
    adjustment an entry gets for its precision. *)
Record Config : Type := {
  schemaVersion : string;
  fastCapacity : nat;
  ttlFor : Precision -> Z;
  adjustmentFor : Precision -> Q
}.

(** Modelled from the spec: the Cache Store's state (section 4.2). The fast tier
    is a bounded list in order of use, most recent first; the shared tier is an
    unbounded map from the persisted key to the entry and the feature vector it
    was stored with. *)
Record Store : Type := {
  fast : list (string * CacheEntry);
  shared : gmap string (NormalizedFeatures * CacheEntry)
}.

(** Modelled from the spec: "cache entries keyed by [{schemaVersion}:{fingerprint}]"
    (section 6). *)
Definition persistedKey (cfg : Config) (fp : string) : string :=
  schemaVersion cfg +:+ ":" +:+ fp.

(** Modelled from the spec: "reads must check [insertedAt + ttl] before returning"
    (section 4.2). An entry is live until its TTL has elapsed. *)
Definition live (now : Z) (e : CacheEntry) : Prop := now < insertedAt e + ttl e.

#[global] Instance live_dec now e : base.Decision (live now e) := Z.lt_dec _ _.

(** Modelled from the spec: the exact lookup on the fast tier (section 4.2): the
    first entry stored for the fingerprint. *)
Fixpoint lru_find (fp : string) (l : list (string * CacheEntry)) : option CacheEntry :=
  match l with
  | [] => None
  | (k, e) :: l' => if decide (k = fp) then Some e else lru_find fp l'
  end.

(** Modelled from the spec: "fast tier uses bounded-capacity LRU" (section 4.2).
    Using an entry puts it first; what no longer fits falls off the end. *)
Definition lru_insert (capacity : nat) (fp : string) (e : CacheEntry)
    (l : list (string * CacheEntry)) : list (string * CacheEntry) :=
  take capacity ((fp, e) :: filter (fun kv => kv.1 <> fp) l).

(** Modelled from the spec: the Shared Cache Backend as a request finds it
    (section 6): "possibly slow or momentarily unavailable (errors downgrade to
    fast-tier-only operation for that request, never fail the whole decision)";
    [CacheUnavailable] is "recovered locally by skipping that tier" (section 7). *)
Inductive Backend : Type := Reachable | CacheUnavailable.

(** Modelled from the spec: [getExact] (section 4.2): "lookup on fast tier,
    falling through to shared tier on miss; promotes shared-tier hits into the fast
    tier", and an expired entry is a miss; with the backend unavailable the read
    is of the fast tier only. The result is the entry, if any, and the store
    after the read. *)
Definition getExact (cfg : Config) (backend : Backend) (now : Z) (fp : string) (s : Store)
  : option CacheEntry * Store :=
  let promoted e :=
    {| fast := lru_insert (fastCapacity cfg) fp e (fast s); shared := shared s |} in
  let fromShared :=
    match backend with
    | Reachable =>
        match shared s !! persistedKey cfg fp with
        | Some (_, e) => if decide (live now e) then (Some e, promoted e) else (None, s)
        | None => (None, s)
        end
    | CacheUnavailable => (None, s)
    end in
  match lru_find fp (fast s) with
  | Some e => if decide (live now e) then (Some e, promoted e) else fromShared
  | None => fromShared
  end.

(** Modelled from the spec: the entry [put] writes (sections 3 and 4.2): inserted
    now, with the TTL of its precision. *)
Definition newEntry (cfg : Config) (now : Z) (d : Decision) (precision : Precision) : CacheEntry :=
  {| decision := d;
     matchPrecision := precision;
     confidenceAdjustment := adjustmentFor cfg precision;
     insertedAt := now;
     ttl := ttlFor cfg precision |}.

(** Modelled from the spec: [put] (section 4.2): "writes to both tiers; TTL
    differs by precision"; with the backend unavailable the write is to the fast
    tier only. *)
Definition put (cfg : Config) (backend : Backend) (now : Z) (fp : string)
    (features : NormalizedFeatures) (d : Decision) (precision : Precision) (s : Store) : Store :=
  let e := newEntry cfg now d precision in
  {| fast := lru_insert (fastCapacity cfg) fp e (fast s);
     shared :=
       match backend with
       | Reachable => <[persistedKey cfg fp := (features, e)]> (shared s)
       | CacheUnavailable => shared s
       end |}.

(** Modelled from the spec: physical eviction by TTL expiry (sections 3 and 4.2),
    whenever the tiers get to it. *)
Definition evictExpired (now : Z) (s : Store) : Store :=
  {| fast := filter (fun kv => live now kv.2) (fast s);
     shared := filter (fun kv => live now kv.2.2) (shared s) |}.

(** Modelled from the spec: the operations on a store (section 4.2), each read
    and write with the backend as it finds it, and a history of them, each with
    its time. *)
Inductive Op : Type :=
  | OpGetExact (backend : Backend) (fp : string)
  | OpPut (backend : Backend) (fp : string) (features : NormalizedFeatures) (d : Decision)
      (precision : Precision)
  | OpEvictExpired.

Definition step (cfg : Config) (now : Z) (op : Op) (s : Store) : Store :=
  match op with
  | OpGetExact backend fp => (getExact cfg backend now fp s).2
  | OpPut backend fp features d precision => put cfg backend now fp features d precision s
  | OpEvictExpired => evictExpired now s
  end.

Fixpoint run (cfg : Config) (history : list (Z * Op)) (s : Store) : Store :=
  match history with
  | [] => s
  | (now, op) :: history' => run cfg history' (step cfg now op s)
  end.

Definition writes (fp : string) (op : Op) : Prop :=
  match op with
  | OpPut _ fp' _ _ _ => fp' = fp
  | _ => False
  end.

(** Modelled from the spec: what a history that never rewrites [fp] keeps true of the store: the shared
    tier holds the entry under the persisted key, and the fast tier holds no other
    entry for the fingerprint. *)
Definition keeps (cfg : Config) (fp : string) (features : NormalizedFeatures)
    (e : CacheEntry) (s : Store) : Prop :=
  shared s !! persistedKey cfg fp = Some (features, e) /\
  (forall e', (fp, e') ∈ fast s -> e' = e).

(** The figures of [src/docs/ARCHITECTURE.md]: a memory cache of 100 entries, an
    hour for an exact match; seconds are the unit. *)
Definition sampleConfig : Config :=
  {| schemaVersion := "v1";
     fastCapacity := 100;
     ttlFor := fun precision => match precision with Exact => 3600 | Similar => 60 end;
     adjustmentFor := fun precision => match precision with Exact => 0%Q | Similar => (-1 # 10)%Q end |}.

Definition sampleDecision : Decision :=
  {| action := Raise; amount := Some 300; confidence := (85 # 100)%Q;
     reasoning := Some "Strong hand in position"; latency := 45 |}.

Definition emptyStore : Store := {| fast := []; shared := ∅ |}.

(** The same configuration with a fast tier of one entry. *)
Definition smallConfig : Config :=
  {| schemaVersion := "v1";
     fastCapacity := 1;
     ttlFor := ttlFor sampleConfig;
     adjustmentFor := adjustmentFor sampleConfig |}.

End CacheStore.

(** ** The budget manager and the tier routing of the design

    The repository declares [CostManager] ([src/unnamed/part_001], 4.4: a daily
    budget, the current spend, [canUseLLM], [recordUsage]) and names
    [LLM_DAILY_BUDGET], but holds no implementation of it. *)

Module Budget.

(** Modelled from the spec: the budget and the length of the window (section
    4.4); the Budget Manager itself is missing. Costs are counted in the
    provider's smallest billing unit: a cost is never negative; a window lasts
    some time: its length is positive. *)
Record Config : Type := {
  windowBudget : N;
  windowLength : positive
}.

(** Modelled from the spec: the end of the window a budget state counts in. *)
Definition windowEnd (cfg : Config) (windowStart : Z) : Z :=
  windowStart + Z.pos (windowLength cfg).

(** Modelled from the spec: BudgetState (section 3), "spend and call counts within
    a rolling window". *)
Record BudgetState : Type := {
  windowStart : Z;
  spend : N;
  calls : nat;
  busy : Z
}.

(** Modelled from the spec: "Window rollover (e.g., daily) resets spend
    atomically" (section 4.4). The state as it counts at [now]: unchanged inside
    the window, reset from the window that holds [now] on. *)
Definition current (cfg : Config) (now : Z) (b : BudgetState) : BudgetState :=
  if now <? windowEnd cfg (windowStart b) then b
  else
    {| windowStart :=
         windowStart b
         + Z.pos (windowLength cfg) * ((now - windowStart b) / Z.pos (windowLength cfg));
       spend := 0;
       calls := 0;
       busy := 0 |}.

(** Modelled from the spec: [remainingBudget()] (section 4.4): what is left of
    the window's budget, zero once it is spent. *)
Definition remainingBudget (cfg : Config) (now : Z) (b : BudgetState) : N :=
  (windowBudget cfg - spend (current cfg now b))%N.

(** Modelled from the spec: "[canEscalate] denies escalation once the window's
    remaining budget is smaller than [estimatedCost]" (section 4.4). *)
Definition canEscalate (cfg : Config) (now : Z) (b : BudgetState) (estimatedCost : N) : bool :=
  negb (remainingBudget cfg now b <? estimatedCost)%N.

(** Modelled from the spec: [record(actualCost, elapsed)] (section 4.4), charged
    "to the window active at [the] completion time" [now]. *)
Definition record (cfg : Config) (now : Z) (actualCost : N) (elapsed : Z) (b : BudgetState)
  : BudgetState :=
  let c := current cfg now b in
  {| windowStart := windowStart c;
     spend := (spend c + actualCost)%N;
     calls := S (calls c);
     busy := busy c + elapsed |}.

(** Modelled from the spec: the window's budget is spent (section 4.4). *)
Definition exhausted (cfg : Config) (b : BudgetState) : Prop := (windowBudget cfg <= spend b)%N.

End Budget.

Module Router.
Import Normalizer CacheStore Budget.

(** Modelled from the spec: "Tier ∈ {Cheap, Moderate, Expensive}" (section 4.3);
    the Decision Router and its tiers are missing. *)
Inductive Tier : Type := Cheap | Moderate | Expensive.

(** Modelled from the spec: "the Router must degrade the tier (Expensive →
    Moderate → Cheap)" (section 4.4): the tiers to try, from the classified one
    down. *)
Definition tiersFrom (tier : Tier) : list Tier :=
  match tier with
  | Expensive => [Expensive; Moderate; Cheap]
  | Moderate => [Moderate; Cheap]
  | Cheap => [Cheap]
  end.

(** Modelled from the spec: "Error{Timeout, ProviderUnavailable, InvalidResponse}"
    (section 6). *)
Inductive ProviderError : Type := Timeout | ProviderUnavailable | InvalidResponse.

(** Modelled from the spec: what a tier's computation hands back (sections 4.4 and
    6): the decision, its actual cost and the
    time it took. *)
Record Computed : Type := {
  produced : Decision;
  actualCost : N;
  elapsed : Z
}.

(** Modelled from the spec: the one failure [decide] hands to its caller
    (section 7). *)
Inductive Error : Type := NormalizationError.

(** Modelled from the spec: the collaborators of the Router (sections 2 and 6), each a function of its
    arguments. [lookup] is the CACHE_LOOKUP state (exact, then similar) and [write]
    the CACHE_WRITE state on whatever cache is plugged in; [compute] is a tier's
    provider called at a given time; [cheapRule] is the Cheap tier's synchronous
    rule, which "always produce[s] some legal decision". *)
Class Collaborators (Cache : Type) : Type := {
  wellFormed : GameState -> bool;
  helpers : Helpers;
  lookup : Z -> string -> NormalizedFeatures -> Cache -> option Decision * Cache;
  write : Z -> string -> NormalizedFeatures -> Decision -> Cache -> Cache;
  classify : NormalizedFeatures -> GameState -> Tier;
  estimatedCost : Tier -> N;
  cheapRule : GameState -> Decision;
  compute : Tier -> GameState -> Z -> Computed + ProviderError
}.

(** Modelled from the spec: the state the Router works on (section 5): the budget
    counters and the cache. *)
Record State (Cache : Type) : Type := {
  budget : BudgetState;
  cache : Cache
}.
Arguments budget {Cache} _.
Arguments cache {Cache} _.

(** Modelled from the spec: what a request comes to: "Decision | Error" (section
    6), the tiers whose computation was started, and the state left behind. *)
Record Outcome (Cache : Type) : Type := {
  result : Decision + Error;
  invoked : list Tier;
  after : State Cache
}.
Arguments result {Cache} _.
Arguments invoked {Cache} _.
Arguments after {Cache} _.

Section Decide.
Context {Cache : Type} `{Collaborators Cache} (cfg : Budget.Config).

(** Modelled from the spec: the states BUDGET_CHECK, DOWNGRADE_TIER and COMPUTE of
    section 4.6, one request at a time. A tier the budget denies is skipped; a
    tier whose provider fails is left for the next one, and "budget [is] not
    charged for a failed call" (section 7); the Cheap tier answers whatever the
    budget says. The result is the decision, the tiers whose computation was
    started, and the budget afterwards. *)
Fixpoint tryTiers (now : Z) (situation : GameState) (b : BudgetState) (candidates : list Tier)
  : Decision * list Tier * BudgetState :=
  match candidates with
  | [] => (cheapRule situation, [Cheap], b)
  | Cheap :: _ => (cheapRule situation, [Cheap], b)
  | tier :: rest =>
      if canEscalate cfg now b (estimatedCost tier) then
        match compute tier situation now with
        | inl c =>
            (produced c, [tier], record cfg (now + elapsed c) (actualCost c) (elapsed c) b)
        | inr _ =>
            let '(d, tiers, b') := tryTiers now situation b rest in
            (d, tier :: tiers, b')
        end
      else tryTiers now situation b rest
  end.

(** Modelled from the spec: [decide] along the state machine of section 4.6,
    NORMALIZE, CACHE_LOOKUP, CLASSIFY, BUDGET_CHECK, COMPUTE, CACHE_WRITE, RETURN,
    for requests served one after the other and without a deadline. *)
Definition decide (now : Z) (situation : GameState) (st : State Cache) : Outcome Cache :=
  if wellFormed situation then
    let features := @normalize helpers situation in
    let fp := @fingerprint helpers features in
    match lookup now fp features (cache st) with
    | (Some d, cache') =>
        {| result := inl d; invoked := []; after := {| budget := budget st; cache := cache' |} |}
    | (None, cache') =>
        let '(d, tiers, b') :=
          tryTiers now situation (budget st) (tiersFrom (classify features situation)) in
        {| result := inl d;
           invoked := tiers;
           after := {| budget := b'; cache := write now fp features d cache' |} |}
    end
  else {| result := inr NormalizationError; invoked := []; after := st |}.

(** Modelled from the spec: requests served in order, each at its time. *)
Fixpoint serve (requests : list (Z * GameState)) (st : State Cache) : list (Outcome Cache) :=
  match requests with
  | [] => []
  | (now, situation) :: requests' =>
      let o := decide now situation st in
      o :: serve requests' (after o)
  end.

(** Modelled from the spec: "until window rollover" (sections 4.4 and 8). The
    requests are served before the window that began at [start] rolls over: each
    arrives before that window ends, and the budget state it finds still counts
    in that window (a call that completed after the end has moved the state to a
    later one). *)
Fixpoint untilRollover (start : Z) (requests : list (Z * GameState)) (st : State Cache) : Prop :=
  match requests with
  | [] => True
  | (now, situation) :: requests' =>
      windowStart (budget st) = start /\
      now < windowEnd cfg start /\
      untilRollover start requests' (after (decide now situation st))
  end.

End Decide.

(** A cache that never holds anything, and collaborators to run the Router on
    examples: every hand is sent to the Expensive tier, whose provider asks 5 units
    a call and takes 2000 ms; the Moderate tier is free. *)
Definition noCache : Type := unit.

Definition sampleCollaborators : Collaborators noCache :=
  {| wellFormed := fun situation => negb (Nat.eqb (length (hand situation)) 0);
     helpers := sampleHelpers;
     lookup := fun _ _ _ c => (None, c);
     write := fun _ _ _ _ c => c;
     classify := fun _ _ => Expensive;
     estimatedCost := fun tier => match tier with Expensive => 5%N | _ => 0%N end;
     cheapRule := fun _ =>
       {| action := Fold; amount := None; confidence := 1%Q; reasoning := None; latency := 1 |};
     compute := fun tier _ _ =>
       match tier with
       | Expensive => inl {| produced := sampleDecision; actualCost := 5; elapsed := 2000 |}
       | _ => inl {| produced :=
                       {| action := Call; amount := Some 100; confidence := (6 # 10)%Q;
                          reasoning := None; latency := 150 |};
                     actualCost := 0; elapsed := 150 |}
       end |}.

(** The same collaborators with an Expensive tier estimated at no cost. *)
Definition freeEstimateCollaborators : Collaborators noCache :=
  {| wellFormed := @wellFormed _ sampleCollaborators;
     helpers := sampleHelpers;
     lookup := @lookup _ sampleCollaborators;
     write := @write _ sampleCollaborators;
     classify := @classify _ sampleCollaborators;
     estimatedCost := fun _ => 0%N;
     cheapRule := @cheapRule _ sampleCollaborators;
     compute := @compute _ sampleCollaborators |}.

(** A daily budget of 10 units, and a state in which it is all spent. *)
Definition dailyBudget : Budget.Config := {| windowBudget := 10; windowLength := 86400000 |}.

Definition spentBudget : BudgetState :=
  {| windowStart := 0; spend := 10; calls := 2; busy := 4000 |}.

End Router.

(** ** [src/tests/setup.ts]: the custom matcher [toBeValidDecision] *)

Module TestSetup.
Import Js.

(** What [received : unknown] may be: a primitive or an object. An object is
    given by whether it is callable and by what reading a property of it gives:
    an own property or one found on its prototype chain, [undefined] when there
    is none; arrays and functions are objects like any other. The properties are
    data properties: reading one runs no code and gives the same value each time
    (accessor properties and [Proxy] traps are not modelled). *)
Inductive Value : Type :=
  | VUndefined
  | VNull
  | VBool (b : bool)
  | VNum (x : float)
  | VStr (s : string)
  | VBigInt (z : Z)
  | VSymbol (description : string)
  | VObject (callable : bool) (get : string -> Value).

(** ToBoolean (ECMA-262 7.1.2). *)
Definition truthy (v : Value) : bool :=
  match v with
  | VUndefined | VNull => false
  | VBool b => b
  | VNum x =>
      match Prim2SF x with
      | S754_zero _ | S754_nan => false
      | _ => true
      end
  | VStr s => negb (String.eqb s "")
  | VBigInt z => negb (z =? 0)
  | VSymbol _ | VObject _ _ => true
  end.

(** The [typeof] operator (ECMA-262 13.5.3). *)
Definition typeof (v : Value) : string :=
  match v with
  | VUndefined => "undefined"
  | VNull => "object"
  | VBool _ => "boolean"
  | VNum _ => "number"
  | VStr _ => "string"
  | VBigInt _ => "bigint"
  | VSymbol _ => "symbol"
  | VObject callable _ => if callable then "function" else "object"
  end.

Definition validActions : list string := ["fold"; "call"; "raise"; "check"; "all-in"].

(** [Array.prototype.includes] on an array of strings: only an equal string is
    found. *)
Definition includes (l : list string) (x : Value) : bool :=
  match x with
  | VStr a => existsb (String.eqb a) l
  | _ => false
  end.

(** [x >= y] and [x <= y] where [x] was found to be a number. *)
Definition number_ge (x : Value) (y : float) : bool :=
  match x with
  | VNum c => PrimFloat.leb y c
  | _ => false
  end.

Definition number_le (x : Value) (y : float) : bool :=
  match x with
  | VNum c => PrimFloat.leb c y
  | _ => false
  end.

(** The constant [pass] of the matcher. The [&&] chain gives its first falsy
    operand, so a falsy [received] is handed back as it is, and it stops there:
    [decision.action] and [decision.confidence] are read of a value found to be
    an object only. *)
Definition pass (received : Value) : Value :=
  let decision := received in
  if negb (truthy decision) then decision
  else if negb (String.eqb (typeof decision) "object") then VBool false
  else
    match decision with
    | VObject _ get =>
        if negb (includes validActions (get "action")) then VBool false
        else if negb (String.eqb (typeof (get "confidence")) "number") then VBool false
        else if negb (number_ge (get "confidence") 0) then VBool false
        else VBool (number_le (get "confidence") 1)
    | _ => VBool false
    end.

(** The test [pass ? ... : ...] of the message. *)
Definition passes (received : Value) : bool := truthy (pass received).

(** An object with the given own properties, none of them [__proto__], and a
    prototype chain that has no property of another name that is read. *)
Definition plain (props : list (string * Value)) : Value :=
  VObject false (fun key => match obj_get key props with Some v => v | None => VUndefined end).

(** [{ action: 'raise', amount: 300, confidence: 0.5 }] *)
Definition raiseDecision : Value :=
  plain [ ("action", VStr "raise"); ("amount", VNum 300%float); ("confidence", VNum 0.5%float) ].

(** [Object.assign(['fold'], { action: 'fold', confidence: 1 })]: an array that
    carries the two properties. *)
Definition arrayWithFields : Value :=
  plain [ ("0", VStr "fold"); ("length", VNum 1%float);
          ("action", VStr "fold"); ("confidence", VNum 1%float) ].

(** [Object.create({ action: 'call', confidence: 0.7 })]: an object with no own
    property, the two inherited. *)
Definition inheritingDecision : Value :=
  VObject false (fun key =>
    if String.eqb key "action" then VStr "call"
    else if String.eqb key "confidence" then VNum 0.7%float
    else VUndefined).

End TestSetup.

(** ** [src/docs/ARCHITECTURE.md], "WebSocket Management": the reconnection delay *)

Module PrimoPokerConnection.

(** The constant [delay] of [setupReconnection],
    [Math.min(1000 * Math.pow(2, this.reconnectAttempts), 30000)], for a count of
    attempts. The product is a multiple of a power of two, exact in binary64 until
    it overflows to Infinity, where the minimum is 30000 as it is here. *)
Definition reconnectDelay (reconnectAttempts : nat) : Z :=
  Z.min (1000 * 2 ^ Z.of_nat reconnectAttempts) 30000.

End PrimoPokerConnection.

(** * Properties *)

Section RuntimeExamples.
Import Js Http.
Local Open Scope float_scope.

(** [Number::toString] on values whose JavaScript output is well known. *)
Example Number_toString_examples :
  map Number_toString
      [0.5; 100; 1e21; 1e-7; 123456789012345680000; 0.000001; -1.5; 5e-324; 0.25 + 0.125]
  = ["0.5"; "100"; "1e+21"; "1e-7"; "123456789012345680000"; "0.000001"; "-1.5"; "5e-324";
     "0.375"].
Proof. vm_compute. reflexivity. Qed.

(** [Math.round] rounds a tie towards +Infinity and keeps the sign of a zero. *)
Example Math_round_examples :
  map Math_round [0.5; 1.5; 2.5; -0.5; -1.5; -2.5; 2.25; -2.75; 9007199254740992]
  = [1; 2; 3; -0; -1; -2; 2; -3; 9007199254740992].
Proof. vm_compute. reflexivity. Qed.

Example Date_toISOString_examples :
  map Date_toISOString [0; 1700000000000; -1; 951782400000; 253402300800000]%Z
  = ["1970-01-01T00:00:00.000Z"; "2023-11-14T22:13:20.000Z"; "1969-12-31T23:59:59.999Z";
     "2000-02-29T00:00:00.000Z"; "+010000-01-01T00:00:00.000Z"].
Proof. vm_compute. reflexivity. Qed.

(** A time value printed as a Number and as an integer: the same digits. *)
Example timestamp_prints_as_decimal :
  Number_toString (float_of_Z 1700000000000) = Z_to_decimal 1700000000000.
Proof. vm_compute. reflexivity. Qed.

(** [JSON.stringify] on a nested value: [{"a":[1,null,true,null],"b c":{},"d":"x\n"}]. *)
Example JSON_stringify_example :
  let q s := str1 quote +:+ s +:+ str1 quote in
  JSON_stringify
    (JObj [ ("a", JArr [JNum 1; JNull; JBool true; JNum (1 / 0)]);
            ("b c", JObj []);
            ("d", JStr ("x" +:+ str1 "010"%char)) ])
  = "{" +:+ q "a" +:+ ":[1,null,true,null]," +:+ q "b c" +:+ ":{}," +:+ q "d" +:+ ":"
    +:+ q ("x" +:+ str1 backslash +:+ "n") +:+ "}".
Proof. vm_compute. reflexivity. Qed.

(** A string body without a content type gets [text/plain;charset=UTF-8]; a
    status outside 200..599 is a [RangeError]. *)
Example new_Response_examples :
  new_Response (Some "Not found") {| init_status := Some 404%Z; init_headers := [] |}
  = Normal {| status := 404; body := Some "Not found";
              headers := [("content-type", "text/plain;charset=UTF-8")] |}
  /\ (exists message,
        new_Response None {| init_status := Some 600%Z; init_headers := [] |}
        = Throw (ThrownError "RangeError" message)).
Proof. split; [reflexivity | eexists; reflexivity]. Qed.

End RuntimeExamples.

Section WorkerProperties.
Import Js Http Worker.

Lemma new_Response_json (text : string) (st : option Z) :
  In st [None; Some 404; Some 500] ->
  new_Response (Some text) {| init_status := st; init_headers := jsonHeaders |} =
  Normal {| status := match st with Some s => s | None => 200 end;
            body := Some text;
            headers := jsonResponseHeaders |}.
Proof.
  intros Hst. simpl in Hst.
  destruct Hst as [<- | [<- | [<- | []]]]; reflexivity.
Qed.

Lemma fetch_cases (request : Request) (env : Env) (now : Z) :
  (method request = "OPTIONS" /\
   fetch request env now =
   Normal {| status := 200; body := None; headers := tl jsonResponseHeaders |})
  \/ (exists st text,
        In st [200; 404] /\
        fetch request env now =
        Normal {| status := st; body := Some text; headers := jsonResponseHeaders |}).
Proof.
  unfold fetch.
  destruct (String.eqb (method request) "OPTIONS") eqn:Hm.
  - left. apply String.eqb_eq in Hm. split; [exact Hm | reflexivity].
  - right. unfold route.
    destruct (String.eqb (pathname (url request)) "/").
    + eexists 200, _. split; [simpl; auto |].
      rewrite (new_Response_json _ None) by (simpl; auto). reflexivity.
    + destruct (String.eqb (pathname (url request)) "/health").
      * eexists 200, _. split; [simpl; auto |].
        rewrite (new_Response_json _ None) by (simpl; auto). reflexivity.
      * eexists 404, _. split; [simpl; auto |].
        rewrite (new_Response_json _ (Some 404)) by (simpl; auto). reflexivity.
Qed.

(** C8. A request whose method is OPTIONS gets, whatever its path, a response with
    status 200, no body, and the four CORS headers. *)
Theorem fetch_options_preflight (request : Request) (env : Env) (now : Z) :
  method request = "OPTIONS" ->
  exists r,
    fetch request env now = Normal r /\
    status r = 200 /\
    body r = None /\
    Headers_get "Access-Control-Allow-Origin" (headers r) = Some "*" /\
    Headers_get "Access-Control-Allow-Methods" (headers r) = Some "GET, POST, PUT, DELETE, OPTIONS" /\
    Headers_get "Access-Control-Allow-Headers" (headers r) = Some "Content-Type, Authorization" /\
    Headers_get "Access-Control-Max-Age" (headers r) = Some "86400" /\
    length (headers r) = 4%nat.
Proof.
  intros Hm. unfold fetch. rewrite Hm. simpl String.eqb.
  eexists. split; [reflexivity |].
  repeat split.
Qed.

Lemma fetch_options_preflight_witness :
  exists r,
    fetch {| method := "OPTIONS";
             url := {| href := "https://lounge.example/agents/7"; pathname := "/agents/7" |};
             json := None |}
          {| ENVIRONMENT := Some "production" |} 1700000000000 = Normal r /\
    status r = 200 /\
    body r = None /\
    Headers_get "Access-Control-Allow-Origin" (headers r) = Some "*" /\
    Headers_get "Access-Control-Allow-Methods" (headers r) = Some "GET, POST, PUT, DELETE, OPTIONS" /\
    Headers_get "Access-Control-Allow-Headers" (headers r) = Some "Content-Type, Authorization" /\
    Headers_get "Access-Control-Max-Age" (headers r) = Some "86400" /\
    length (headers r) = 4%nat.
Proof.
  apply fetch_options_preflight. reflexivity.
Defined.

(** C9. Every response of the Worker's [fetch] carries
    [Access-Control-Allow-Origin: *]: the preflight answer, the root route (200),
    the health route (200), the not-found answer (404), and the answer the [catch]
    block builds for any thrown value (500). *)
Theorem fetch_always_allows_any_origin :
  (forall (request : Request) (env : Env) (now : Z),
     exists r,
       fetch request env now = Normal r /\
       Headers_get "Access-Control-Allow-Origin" (headers r) = Some "*" /\
       status r =
         (if String.eqb (method request) "OPTIONS" then 200
          else if String.eqb (pathname (url request)) "/" then 200
          else if String.eqb (pathname (url request)) "/health" then 200
          else 404))
  /\ (forall error : Thrown,
        exists r,
          internalServerError error = Normal r /\
          status r = 500 /\
          Headers_get "Access-Control-Allow-Origin" (headers r) = Some "*").
Proof.
  split.
  - intros request env now. unfold fetch, route.
    destruct (String.eqb (method request) "OPTIONS").
    + eexists. split; [reflexivity |]. split; reflexivity.
    + destruct (String.eqb (pathname (url request)) "/");
        [| destruct (String.eqb (pathname (url request)) "/health")].
      * rewrite (new_Response_json _ None) by (simpl; auto).
        eexists. split; [reflexivity |]. split; reflexivity.
      * rewrite (new_Response_json _ None) by (simpl; auto).
        eexists. split; [reflexivity |]. split; reflexivity.
      * rewrite (new_Response_json _ (Some 404)) by (simpl; auto).
        eexists. split; [reflexivity |]. split; reflexivity.
  - intros error. unfold internalServerError.
    rewrite (new_Response_json _ (Some 500)) by (simpl; auto).
    eexists. split; [reflexivity |]. split; reflexivity.
Qed.

End WorkerProperties.

Section AgentManagerProperties.
Import Js Http AgentManager.

Lemma new_Response_created (text : string) :
  new_Response (Some text)
    {| init_status := Some 201; init_headers := [("Content-Type", "application/json")] |} =
  Normal {| status := 201; body := Some text;
            headers := [("content-type", "application/json")] |}.
Proof. reflexivity. Qed.

(** [createAgent] with a body that parses. *)
Lemma createAgent_parsed (request : Request) (config : JsValue) (t_now t_date : Z) :
  json request = Some config ->
  createAgent request t_now t_date =
  Normal {| status := 201;
            body := Some (JSON_stringify (createAgent_payload config t_now t_date));
            headers := [("content-type", "application/json")] |}.
Proof.
  intros Hjson. unfold createAgent, request_json. rewrite Hjson.
  cbn [bind]. apply new_Response_created.
Qed.

(** A body that does not parse rejects [createAgent]; [fetch] returned the promise
    without awaiting it, so its [catch] block does not see the rejection and the
    promise of [fetch] rejects too. *)
Lemma fetch_unparsed_body_rejects (request : Request) (t_now t_date : Z) :
  method request = "POST" ->
  pathname (url request) = "/agents" ->
  json request = None ->
  exists message, fetch request t_now t_date = Throw (ThrownError "SyntaxError" message).
Proof.
  intros Hm Hp Hjson. unfold fetch, dispatch. rewrite Hm, Hp. cbn.
  unfold createAgent, request_json. rewrite Hjson. cbn. eauto.
Qed.

(** C10. A POST to [/agents] whose body parses as JSON (to any value at all) is
    answered by [createAgent] with status 201 and the serialization of an object
    whose [agentId] is [agent_] followed by the decimal timestamp [Date.now()] read,
    and whose [config] is the parsed body as it is. *)
Theorem createAgent_echoes_config (request : Request) (config : JsValue) (t_now t_date : Z) :
  method request = "POST" ->
  pathname (url request) = "/agents" ->
  json request = Some config ->
  exists (r : Response) (payload : list (string * JsValue)),
    fetch request t_now t_date = createAgent request t_now t_date /\
    createAgent request t_now t_date = Normal r /\
    status r = 201 /\
    body r = Some (JSON_stringify (JObj payload)) /\
    obj_get "agentId" payload = Some (JStr ("agent_" +:+ Z_to_decimal t_now)) /\
    obj_get "config" payload = Some config /\
    map fst payload = ["agentId"; "status"; "config"; "createdAt"].
Proof.
  intros Hm Hp Hjson.
  eexists _, _. split; [| split; [apply (createAgent_parsed _ _ _ _ Hjson) |]].
  - unfold fetch, dispatch. rewrite Hm, Hp. reflexivity.
  - cbn [status body]. unfold createAgent_payload.
    repeat split.
Qed.

Lemma createAgent_echoes_config_witness :
  exists (r : Response) (payload : list (string * JsValue)),
    let request :=
      {| method := "POST";
         url := {| href := "https://do.internal/agents"; pathname := "/agents" |};
         json := Some (JArr [JStr "not an agent config"; JNum 3%float; JNull]) |} in
    fetch request 1700000000000 1700000000001 = createAgent request 1700000000000 1700000000001 /\
    createAgent request 1700000000000 1700000000001 = Normal r /\
    status r = 201 /\
    body r = Some (JSON_stringify (JObj payload)) /\
    obj_get "agentId" payload = Some (JStr ("agent_" +:+ Z_to_decimal 1700000000000)) /\
    obj_get "config" payload = Some (JArr [JStr "not an agent config"; JNum 3%float; JNull]) /\
    map fst payload = ["agentId"; "status"; "config"; "createdAt"].
Proof.
  apply (createAgent_echoes_config
           {| method := "POST";
              url := {| href := "https://do.internal/agents"; pathname := "/agents" |};
              json := Some (JArr [JStr "not an agent config"; JNum 3%float; JNull]) |});
    reflexivity.
Defined.

End AgentManagerProperties.

Section NormalizerProperties.
Import Js Normalizer.
Context `{Helpers}.

Lemma read_alike_normalize (s1 s2 : GameState) :
  read_alike s1 s2 -> normalize s1 = normalize s2.
Proof.
  intros (Hhand & Hboard & Hodds & Hpos & Hhist & Hdepth).
  unfold normalize. rewrite Hhand, Hboard, Hodds, Hpos, Hhist, Hdepth. reflexivity.
Qed.

(** C2. [generateCacheKey] is a function of the normalized features alone: two
    game states with equal features get equal fingerprints; and the features are
    a function of what [normalize] reads, so game states that read alike (a pot of
    501 or of 505 with the same pot odds in tenths) normalize to the same
    features. *)
Theorem fingerprint_deterministic (s1 s2 : GameState) :
  (normalize s1 = normalize s2 ->
   fingerprint (normalize s1) = fingerprint (normalize s2) /\
   generateCacheKey s1 = generateCacheKey s2)
  /\ (read_alike s1 s2 -> normalize s1 = normalize s2).
Proof.
  split.
  - intros Heq. unfold generateCacheKey. rewrite Heq. split; reflexivity.
  - apply read_alike_normalize.
Qed.

End NormalizerProperties.

Section NormalizerExamples.
Import Js Normalizer.
Local Open Scope float_scope.

Lemma fingerprint_deterministic_witness :
  sampleState 501 <> sampleState 505 /\
  read_alike (sampleState 501) (sampleState 505) /\
  @normalize sampleHelpers (sampleState 501) = @normalize sampleHelpers (sampleState 505) /\
  @generateCacheKey sampleHelpers (sampleState 501) =
  @generateCacheKey sampleHelpers (sampleState 505).
Proof.
  pose proof (@fingerprint_deterministic sampleHelpers (sampleState 501) (sampleState 505))
    as [Hkey Hfeatures].
  assert (Halike : read_alike (sampleState 501) (sampleState 505))
    by (repeat split; vm_compute; reflexivity).
  split; [| split; [exact Halike | split; [exact (Hfeatures Halike) |]]].
  - intros Heq. apply (f_equal pot) in Heq. vm_compute in Heq. discriminate Heq.
  - exact (proj2 (Hkey (Hfeatures Halike))).
Defined.

End NormalizerExamples.

Section CacheStoreProperties.
Import Normalizer CacheStore.

Lemma append_inj_l (prefix a b : string) : prefix +:+ a = prefix +:+ b -> a = b.
Proof.
  induction prefix as [| c prefix IH]; simpl; intros Heq.
  - exact Heq.
  - injection Heq as Heq. exact (IH Heq).
Qed.

Lemma persistedKey_inj (cfg : Config) (a b : string) :
  persistedKey cfg a = persistedKey cfg b -> a = b.
Proof.
  unfold persistedKey. intros Heq.
  apply append_inj_l in Heq. exact (append_inj_l _ _ _ Heq).
Qed.

Lemma lru_find_elem_of (fp : string) (l : list (string * CacheEntry)) (e : CacheEntry) :
  lru_find fp l = Some e -> (fp, e) ∈ l.
Proof.
  induction l as [| [k x] l IH]; simpl; [discriminate |].
  destruct (decide (k = fp)) as [-> | Hne].
  - intros [= ->]. apply elem_of_cons. left. reflexivity.
  - intros Hfind. apply elem_of_cons. right. exact (IH Hfind).
Qed.

Lemma elem_of_lru_insert (capacity : nat) (k k' : string) (x e : CacheEntry)
    (l : list (string * CacheEntry)) :
  (k, x) ∈ lru_insert capacity k' e l ->
  (k = k' /\ x = e) \/ (k <> k' /\ (k, x) ∈ l).
Proof.
  unfold lru_insert. intros Hin.
  apply subseteq_take in Hin. apply elem_of_cons in Hin as [Heq | Hin].
  - left. injection Heq as -> ->. split; reflexivity.
  - right. apply list_elem_of_filter in Hin as [Hne Hin]. split; [exact Hne | exact Hin].
Qed.

Lemma keeps_put cfg now fp features d precision s :
  keeps cfg fp features (newEntry cfg now d precision)
    (put cfg Reachable now fp features d precision s).
Proof.
  split; simpl.
  - apply lookup_insert_eq.
  - intros e' Hin. apply elem_of_lru_insert in Hin as [[_ ->] | [Hne _]]; [reflexivity | done].
Qed.

Lemma keeps_promoted cfg fp features e fp' e' s :
  keeps cfg fp features e s ->
  (fp' = fp -> e' = e) ->
  keeps cfg fp features e
    {| fast := lru_insert (fastCapacity cfg) fp' e' (fast s); shared := shared s |}.
Proof.
  intros [Hshared Hfast] Hsame. split; simpl; [exact Hshared |].
  intros x Hin. apply elem_of_lru_insert in Hin as [[Heq ->] | [_ Hin]].
  - symmetry in Heq. exact (Hsame Heq).
  - exact (Hfast _ Hin).
Qed.

Lemma keeps_getExact cfg backend now fp' fp features e s :
  keeps cfg fp features e s -> keeps cfg fp features e (getExact cfg backend now fp' s).2.
Proof.
  intros Hkeeps. pose proof Hkeeps as [Hshared Hfast]. unfold getExact.
  assert (Hfrom :
    keeps cfg fp features e
      (match backend with
       | Reachable =>
           match shared s !! persistedKey cfg fp' with
           | Some (_, x) =>
               if decide (live now x)
               then (Some x, {| fast := lru_insert (fastCapacity cfg) fp' x (fast s);
                                shared := shared s |})
               else (None, s)
           | None => (None, s)
           end
       | CacheUnavailable => (None, s)
       end).2).
  { destruct backend; [| exact Hkeeps].
    destruct (shared s !! persistedKey cfg fp') as [[f x] |] eqn:Hlook; [| exact Hkeeps].
    destruct (decide (live now x)); [| exact Hkeeps].
    simpl. apply keeps_promoted; [exact Hkeeps |].
    intros ->. rewrite Hshared in Hlook. injection Hlook as _ <-. reflexivity. }
  destruct (lru_find fp' (fast s)) as [x |] eqn:Hfind; [| exact Hfrom].
  destruct (decide (live now x)); [| exact Hfrom].
  simpl. apply keeps_promoted; [exact Hkeeps |].
  intros ->. apply Hfast. exact (lru_find_elem_of _ _ _ Hfind).
Qed.

Lemma keeps_step cfg now op fp features e s :
  keeps cfg fp features e s ->
  ~ writes fp op ->
  live now e ->
  keeps cfg fp features e (step cfg now op s).
Proof.
  intros Hkeeps Hother Hlive.
  destruct op as [backend fp' | backend fp' features' d precision |]; simpl.
  - apply keeps_getExact. exact Hkeeps.
  - simpl in Hother. destruct Hkeeps as [Hshared Hfast]. split; simpl.
    + destruct backend; [| exact Hshared].
      rewrite lookup_insert_ne; [exact Hshared |].
      intros Heq. apply Hother. exact (persistedKey_inj _ _ _ Heq).
    + intros x Hin. apply elem_of_lru_insert in Hin as [[Heq _] | [_ Hin]].
      * exfalso. apply Hother. symmetry. exact Heq.
      * exact (Hfast _ Hin).
  - destruct Hkeeps as [Hshared Hfast]. split; simpl.
    + apply map_lookup_filter_Some. split; [exact Hshared | exact Hlive].
    + intros x Hin. apply list_elem_of_filter in Hin as [_ Hin]. exact (Hfast _ Hin).
Qed.

Lemma live_earlier (now t : Z) (e : CacheEntry) : now <= t -> live t e -> live now e.
Proof. unfold live. lia. Qed.

Lemma keeps_run cfg history t fp features e s :
  Forall (fun timed => timed.1 <= t /\ ~ writes fp timed.2) history ->
  live t e ->
  keeps cfg fp features e s ->
  keeps cfg fp features e (run cfg history s).
Proof.
  intros Hhistory Hlive. revert s.
  induction Hhistory as [| [now op] history [Hnow Hother] _ IH]; intros s Hkeeps; simpl.
  - exact Hkeeps.
  - apply IH. apply keeps_step; [exact Hkeeps | exact Hother |].
    exact (live_earlier _ _ _ Hnow Hlive).
Qed.

(** A read that reaches the shared tier finds the entry the store keeps. *)
Lemma getExact_keeps cfg t fp features e s :
  keeps cfg fp features e s -> live t e -> (getExact cfg Reachable t fp s).1 = Some e.
Proof.
  intros [Hshared Hfast] Hlive. unfold getExact. rewrite Hshared.
  destruct (lru_find fp (fast s)) as [x |] eqn:Hfind.
  - apply lru_find_elem_of, Hfast in Hfind. subst x.
    destruct (decide (live t e)); [reflexivity | contradiction].
  - destruct (decide (live t e)); [reflexivity | contradiction].
Qed.

(** A read of the fast tier alone finds the entry the store keeps, or nothing. *)
Lemma getExact_keeps_fast cfg t fp features e s :
  keeps cfg fp features e s ->
  (getExact cfg CacheUnavailable t fp s).1 = Some e \/
  (getExact cfg CacheUnavailable t fp s).1 = None.
Proof.
  intros [_ Hfast]. unfold getExact.
  destruct (lru_find fp (fast s)) as [x |] eqn:Hfind; [| right; reflexivity].
  apply lru_find_elem_of, Hfast in Hfind. subst x.
  destruct (decide (live t e)); [left | right]; reflexivity.
Qed.

(** Whatever the store holds and whether or not the backend answers, [getExact]
    returns live entries only. *)
Lemma getExact_live cfg backend t fp s e :
  (getExact cfg backend t fp s).1 = Some e -> live t e.
Proof.
  unfold getExact.
  assert (Hfrom :
    (match backend with
     | Reachable =>
         match shared s !! persistedKey cfg fp with
         | Some (_, x) =>
             if decide (live t x)
             then (Some x, {| fast := lru_insert (fastCapacity cfg) fp x (fast s);
                              shared := shared s |})
             else (None, s)
         | None => (None, s)
         end
     | CacheUnavailable => (None, s)
     end).1 = Some e -> live t e).
  { destruct backend; [| discriminate].
    destruct (shared s !! persistedKey cfg fp) as [[f x] |]; [| discriminate].
    destruct (decide (live t x)) as [Hlive |]; [| discriminate].
    simpl. intros [= <-]. exact Hlive. }
  destruct (lru_find fp (fast s)) as [x |]; [| exact Hfrom].
  destruct (decide (live t x)) as [Hlive |]; [| exact Hfrom].
  simpl. intros [= <-]. exact Hlive.
Qed.

(** C5. An entry that [put] inserted at [t0] with TTL [T], the write
    reaching the shared tier, is what [getExact] returns for its fingerprint at
    any time before [t0 + T], as long as no later [put] wrote the same fingerprint
    and the read reaches the shared tier: after any history of reads, evictions
    and writes to other fingerprints, whether or not these found the backend. A
    read that finds the backend unavailable returns the entry or misses. From
    [t0 + T] on no read of any store returns the entry, whether or not it was
    evicted. *)
Theorem getExact_respects_ttl (cfg : Config) (s0 : Store) (fp : string)
    (features : NormalizedFeatures) (d : Decision) (precision : Precision)
    (t0 t : Z) (history : list (Z * Op)) :
  let e := newEntry cfg t0 d precision in
  let s := run cfg history (put cfg Reachable t0 fp features d precision s0) in
  (Forall (fun timed => timed.1 <= t /\ ~ writes fp timed.2) history ->
   t < t0 + ttlFor cfg precision ->
   (getExact cfg Reachable t fp s).1 = Some e /\
   ((getExact cfg CacheUnavailable t fp s).1 = Some e \/
    (getExact cfg CacheUnavailable t fp s).1 = None))
  /\ (forall (backend : Backend) (s' : Store),
        t0 + ttlFor cfg precision <= t -> (getExact cfg backend t fp s').1 <> Some e).
Proof.
  intros e s. split.
  - intros Hhistory Hbefore.
    assert (Hlive : live t e) by exact Hbefore.
    assert (Hkeeps : keeps cfg fp features e s).
    { apply (keeps_run cfg history t); [exact Hhistory | exact Hlive |]. apply keeps_put. }
    split.
    + exact (getExact_keeps cfg t fp features e s Hkeeps Hlive).
    + exact (getExact_keeps_fast cfg t fp features e s Hkeeps).
  - intros backend s' Hafter Hget. apply getExact_live in Hget.
    unfold live in Hget. simpl in Hget. lia.
Qed.

End CacheStoreProperties.

Section RouterProperties.
Import Normalizer CacheStore Budget Router.
Context {Cache : Type} `{Collaborators Cache} (cfg : Budget.Config).

Lemma current_inside (now : Z) (b : BudgetState) :
  now < windowEnd cfg (windowStart b) -> current cfg now b = b.
Proof.
  intros Hin. unfold current.
  destruct (now <? windowEnd cfg (windowStart b)) eqn:Hlt; [reflexivity |].
  apply Z.ltb_ge in Hlt. lia.
Qed.

(** Past the end of the window the state counts in a later one. *)
Lemma current_rolls_over (now : Z) (b : BudgetState) :
  windowEnd cfg (windowStart b) <= now -> windowStart b < windowStart (current cfg now b).
Proof.
  intros Hout. unfold current, windowEnd in *.
  destruct (now <? windowStart b + Z.pos (windowLength cfg)) eqn:Hlt;
    [apply Z.ltb_lt in Hlt; lia |].
  simpl.
  assert (Hq : 1 <= (now - windowStart b) / Z.pos (windowLength cfg))
    by (apply Z.div_le_lower_bound; lia).
  nia.
Qed.

Lemma canEscalate_denies (now : Z) (b : BudgetState) (cost : N) :
  (remainingBudget cfg now b < cost)%N -> canEscalate cfg now b cost = false.
Proof.
  intros Hlt. unfold canEscalate. apply N.ltb_lt in Hlt. rewrite Hlt. reflexivity.
Qed.

Lemma exhausted_remaining (now : Z) (b : BudgetState) :
  now < windowEnd cfg (windowStart b) ->
  remainingBudget cfg now b = 0%N <-> exhausted cfg b.
Proof.
  intros Hin. unfold remainingBudget, exhausted. rewrite (current_inside _ _ Hin). lia.
Qed.

(** A charge leaves a spent budget spent, unless it moves the state to a later
    window. *)
Lemma record_keeps_spent (now : Z) (cost : N) (time : Z) (b : BudgetState) :
  exhausted cfg b ->
  windowStart (record cfg now cost time b) = windowStart b ->
  exhausted cfg (record cfg now cost time b).
Proof.
  intros Hspent Hsame.
  destruct (Z.lt_ge_cases now (windowEnd cfg (windowStart b))) as [Hin | Hout].
  - unfold record, exhausted in *. rewrite (current_inside _ _ Hin). simpl. lia.
  - apply current_rolls_over in Hout. unfold record in Hsame. simpl in Hsame. lia.
Qed.

(** The tiers [tryTiers] starts are among its candidates, or the Cheap rule. *)
Lemma tryTiers_invoked (now : Z) (situation : GameState) (b : BudgetState)
    (candidates : list Tier) (tier : Tier) :
  tier ∈ (tryTiers cfg now situation b candidates).1.2 ->
  tier ∈ candidates \/ tier = Cheap.
Proof.
  induction candidates as [| t rest IH]; simpl.
  - intros Hin. right. apply list_elem_of_singleton in Hin. exact Hin.
  - assert (Hcheap : tier ∈ [Cheap] -> tier ∈ t :: rest \/ tier = Cheap).
    { intros Hin. right. apply list_elem_of_singleton in Hin. exact Hin. }
    assert (Hrest : tier ∈ (tryTiers cfg now situation b rest).1.2 ->
                    tier ∈ t :: rest \/ tier = Cheap).
    { intros Hin. destruct (IH Hin) as [Hin' | ->]; [left | right; reflexivity].
      apply elem_of_cons. right. exact Hin'. }
    assert (Hstep :
      tier ∈ (if canEscalate cfg now b (estimatedCost t)
              then match compute t situation now with
                   | inl c => (produced c, [t],
                               record cfg (now + elapsed c) (actualCost c) (elapsed c) b)
                   | inr _ =>
                       let '(d, tiers, b') := tryTiers cfg now situation b rest in
                       (d, t :: tiers, b')
                   end
              else tryTiers cfg now situation b rest).1.2 ->
      tier ∈ t :: rest \/ tier = Cheap).
    { destruct (canEscalate cfg now b (estimatedCost t)); [| exact Hrest].
      destruct (compute t situation now) as [c | err].
      - simpl. intros Hin. apply list_elem_of_singleton in Hin as ->.
        left. apply elem_of_cons. left. reflexivity.
      - destruct (tryTiers cfg now situation b rest) as [[d tiers] b'] eqn:Htry.
        simpl in *. intros Hin. apply elem_of_cons in Hin as [-> | Hin].
        + left. apply elem_of_cons. left. reflexivity.
        + exact (Hrest Hin). }
    destruct t; [exact Hcheap | exact Hstep | exact Hstep].
Qed.

(** With the budget spent, a request that arrives inside the window does not
    start the Expensive tier, and leaves the budget spent unless the call it did
    start completed in a later window. *)
Lemma tryTiers_exhausted (now : Z) (situation : GameState) (b : BudgetState)
    (candidates : list Tier) :
  (0 < estimatedCost Expensive)%N ->
  exhausted cfg b ->
  now < windowEnd cfg (windowStart b) ->
  (Expensive ∉ (tryTiers cfg now situation b candidates).1.2) /\
  (windowStart (tryTiers cfg now situation b candidates).2 = windowStart b ->
   exhausted cfg (tryTiers cfg now situation b candidates).2).
Proof.
  intros Hcost Hspent Harrives.
  assert (Hdenied : canEscalate cfg now b (estimatedCost Expensive) = false).
  { apply canEscalate_denies.
    rewrite (proj2 (exhausted_remaining now b Harrives) Hspent). exact Hcost. }
  assert (Hcheap : forall t, t ∈ [Cheap] -> t <> Expensive).
  { intros t Hin. apply list_elem_of_singleton in Hin as ->. discriminate. }
  induction candidates as [| t rest IH]; simpl.
  - split; [| intros _; exact Hspent].
    intros Hin. exact (Hcheap _ Hin eq_refl).
  - destruct t.
    + split; [| intros _; exact Hspent].
      intros Hin. exact (Hcheap _ Hin eq_refl).
    + destruct (canEscalate cfg now b (estimatedCost Moderate)); [| exact IH].
      destruct (compute Moderate situation now) as [c | err] eqn:Hcompute.
      * simpl. split.
        -- intros Hin. apply list_elem_of_singleton in Hin. discriminate Hin.
        -- apply record_keeps_spent. exact Hspent.
      * destruct (tryTiers cfg now situation b rest) as [[d tiers] b'] eqn:Htry.
        simpl in *. destruct IH as (Hnot & Hspent').
        split; [| exact Hspent'].
        intros Hin. apply elem_of_cons in Hin as [Heq | Hin]; [discriminate Heq | exact (Hnot Hin)].
    + rewrite Hdenied. exact IH.
Qed.

Lemma decide_exhausted (now : Z) (situation : GameState) (st : State Cache) :
  (0 < estimatedCost Expensive)%N ->
  exhausted cfg (budget st) ->
  now < windowEnd cfg (windowStart (budget st)) ->
  (Expensive ∉ invoked (decide cfg now situation st)) /\
  (windowStart (budget (after (decide cfg now situation st))) = windowStart (budget st) ->
   exhausted cfg (budget (after (decide cfg now situation st)))).
Proof.
  intros Hcost Hspent Harrives. unfold decide.
  destruct (wellFormed situation); simpl.
  - destruct (lookup now _ _ (cache st)) as [[d |] cache']; simpl.
    + split; [apply not_elem_of_nil | intros _; exact Hspent].
    + pose proof (tryTiers_exhausted now situation (budget st)
                    (tiersFrom (classify (@normalize helpers situation) situation))
                    Hcost Hspent Harrives) as Htry.
      destruct (tryTiers cfg now situation (budget st) _) as [[d tiers] b'].
      exact Htry.
  - split; [apply not_elem_of_nil | intros _; exact Hspent].
Qed.

Lemma serve_exhausted (requests : list (Z * GameState)) (st : State Cache) :
  (0 < estimatedCost Expensive)%N ->
  exhausted cfg (budget st) ->
  untilRollover cfg (windowStart (budget st)) requests st ->
  Forall (fun o => Expensive ∉ invoked o) (serve cfg requests st).
Proof.
  intros Hcost. revert st.
  induction requests as [| [now situation] requests IH]; intros st Hspent Huntil; simpl.
  - constructor.
  - simpl in Huntil. destruct Huntil as (_ & Harrives & Hrest).
    destruct (decide_exhausted now situation st Hcost Hspent Harrives) as (Hnot & Hspent').
    constructor; [exact Hnot |].
    destruct requests as [| [now' situation'] requests'].
    + constructor.
    + pose proof Hrest as Hrest'. simpl in Hrest'. destruct Hrest' as (Hstart & _).
      apply IH; [exact (Hspent' Hstart) |].
      rewrite Hstart. exact Hrest.
Qed.

(** A well-formed situation always gets a decision. *)
Lemma decide_answers (now : Z) (situation : GameState) (st : State Cache) :
  wellFormed situation = true -> exists d, result (decide cfg now situation st) = inl d.
Proof.
  intros Hwf. unfold decide. rewrite Hwf.
  destruct (lookup now _ _ (cache st)) as [[d |] cache'].
  - exists d. reflexivity.
  - destruct (tryTiers cfg now situation (budget st) _) as [[d tiers] b'].
    exists d. reflexivity.
Qed.

Lemma tryTiers_denied (now : Z) (situation : GameState) (b : BudgetState)
    (tier : Tier) (rest : list Tier) :
  tier <> Cheap ->
  canEscalate cfg now b (estimatedCost tier) = false ->
  tryTiers cfg now situation b (tier :: rest) = tryTiers cfg now situation b rest.
Proof.
  intros Hnot_cheap Hdenied. destruct tier; [done | |]; simpl; rewrite Hdenied; reflexivity.
Qed.

(** Denied the tier the classifier chose, the Router answers from a lower one. *)
Lemma decide_downgrades (now : Z) (situation : GameState) (st : State Cache) :
  let tier := classify (@normalize helpers situation) situation in
  wellFormed situation = true ->
  tier <> Cheap ->
  (remainingBudget cfg now (budget st) < estimatedCost tier)%N ->
  (exists d, result (decide cfg now situation st) = inl d) /\
  tier ∉ invoked (decide cfg now situation st).
Proof.
  intros tier Hwf Hnot_cheap Hshort.
  split; [exact (decide_answers now situation st Hwf) |].
  apply canEscalate_denies in Hshort.
  unfold decide. rewrite Hwf.
  destruct (lookup now _ _ (cache st)) as [[d |] cache']; simpl; [apply not_elem_of_nil |].
  fold tier.
  destruct (tryTiers cfg now situation (budget st) (tiersFrom tier)) as [[d tiers] b'] eqn:Htry.
  simpl. intros Hin.
  assert (Hin' : tier ∈ (tryTiers cfg now situation (budget st) (tiersFrom tier)).1.2)
    by (rewrite Htry; exact Hin).
  clear Htry Hin. revert Hin'.
  assert (Hlower : exists rest, tiersFrom tier = tier :: rest /\ (tier ∉ rest) /\ tier <> Cheap).
  { destruct tier; [done | |]; eexists; (split; [reflexivity | split; [| discriminate]]).
    - intros Hin. apply list_elem_of_singleton in Hin. discriminate Hin.
    - intros Hin. apply elem_of_cons in Hin as [Heq | Hin]; [discriminate Heq |].
      apply list_elem_of_singleton in Hin. discriminate Hin. }
  destruct Hlower as (rest & -> & Hnot_in & _).
  rewrite (tryTiers_denied _ _ _ _ _ Hnot_cheap Hshort).
  intros Hin. apply tryTiers_invoked in Hin as [Hin | Heq]; [exact (Hnot_in Hin) | exact (Hnot_cheap Heq)].
Qed.


End RouterProperties.

Section DesignExamples.
Import Normalizer CacheStore Budget Router.
Local Open Scope float_scope.

(** A reading of the fingerprint itself, a write to another fingerprint that
    does not find the backend and an eviction between the insertion at 1000 s and
    the reads at 4599 s and 4600 s; the TTL of an exact entry is 3600 s. *)
Lemma getExact_respects_ttl_witness :
  let features := @normalize sampleHelpers (sampleState 501) in
  let history :=
    [ (1500%Z, OpGetExact Reachable "abc");
      (2000%Z, OpPut CacheUnavailable "other" features sampleDecision Similar);
      (2500%Z, OpEvictExpired) ] in
  let s := run sampleConfig history
               (put sampleConfig Reachable 1000 "abc" features sampleDecision Exact emptyStore) in
  let e := newEntry sampleConfig 1000 sampleDecision Exact in
  ((getExact sampleConfig Reachable 4599 "abc" s).1 = Some e /\
   ((getExact sampleConfig CacheUnavailable 4599 "abc" s).1 = Some e \/
    (getExact sampleConfig CacheUnavailable 4599 "abc" s).1 = None))
  /\ (getExact sampleConfig Reachable 4600 "abc" s).1 <> Some e.
Proof.
  intros features history s e. split.
  - apply (proj1 (getExact_respects_ttl sampleConfig emptyStore "abc" features sampleDecision
                    Exact 1000 4599 history)).
    + repeat constructor; simpl; try lia; try tauto; discriminate.
    + simpl. lia.
  - apply (proj2 (getExact_respects_ttl sampleConfig emptyStore "abc" features sampleDecision
                    Exact 1000 4600 history)).
    simpl. lia.
Defined.

(** Three times an entry inserted at 1000 s with a TTL of 3600 s is not returned
    before 4600 s. A later [put] of a similarity match rewrites the fingerprint,
    and its own TTL of 60 s has passed at 2061 s. With a fast tier of one entry, a
    write to another fingerprint takes the entry's place there, and the read at
    2000 s does not find the backend. And the write itself did not find the
    backend, so that the read at 2000 s finds the entry in neither tier. *)
Lemma getExact_misses_before_ttl :
  let features := @normalize sampleHelpers (sampleState 501) in
  let e := newEntry sampleConfig 1000 sampleDecision Exact in
  (2061 < insertedAt e + ttl e)%Z /\
  (getExact sampleConfig Reachable 2061 "abc"
     (run sampleConfig [ (2000%Z, OpPut Reachable "abc" features sampleDecision Similar) ]
        (put sampleConfig Reachable 1000 "abc" features sampleDecision Exact emptyStore))).1
  = None /\
  (getExact smallConfig CacheUnavailable 2000 "abc"
     (run smallConfig [ (1500%Z, OpPut Reachable "other" features sampleDecision Exact) ]
        (put smallConfig Reachable 1000 "abc" features sampleDecision Exact emptyStore))).1
  = None /\
  (getExact smallConfig Reachable 2000 "abc"
     (run smallConfig [ (1500%Z, OpPut Reachable "other" features sampleDecision Exact) ]
        (put smallConfig CacheUnavailable 1000 "abc" features sampleDecision Exact emptyStore))).1
  = None.
Proof. repeat split; vm_compute; reflexivity. Qed.



End DesignExamples.

(** * Further properties of the code *)

Section WorkerRouting.
Import Js Http Worker.

Lemma method_is_not_options (request : Request) :
  method request <> "OPTIONS" -> String.eqb (method request) "OPTIONS" = false.
Proof. intros Hne. apply String.eqb_neq. exact Hne. Qed.

(** X1. Apart from the preflight test, [fetch] reads nothing of a request but the
    pathname of its URL: two requests with the same pathname get the same
    response whatever their methods, query strings and bodies. *)
Theorem fetch_reads_pathname_only (r1 r2 : Request) (env : Env) (now : Z) :
  method r1 <> "OPTIONS" ->
  method r2 <> "OPTIONS" ->
  pathname (url r1) = pathname (url r2) ->
  fetch r1 env now = fetch r2 env now.
Proof.
  intros H1 H2 Hpath. unfold fetch.
  rewrite (method_is_not_options _ H1), (method_is_not_options _ H2).
  unfold route. rewrite Hpath. reflexivity.
Qed.

Lemma fetch_reads_pathname_only_witness :
  let get :=
    {| method := "GET";
       url := {| href := "https://lounge.example/health"; pathname := "/health" |};
       json := None |} in
  let delete :=
    {| method := "DELETE";
       url := {| href := "https://lounge.example/health?verbose=1"; pathname := "/health" |};
       json := Some (JObj [("force", JBool true)]) |} in
  fetch get {| ENVIRONMENT := Some "staging" |} 1700000000000
  = fetch delete {| ENVIRONMENT := Some "staging" |} 1700000000000.
Proof.
  intros get delete. apply fetch_reads_pathname_only; [discriminate | discriminate | reflexivity].
Defined.

(** X2. Every response to a request that is not a preflight has a body that is
    the serialization of an object, and says so: its content type is
    [application/json]. *)
Theorem fetch_answers_json (request : Request) (env : Env) (now : Z) :
  method request <> "OPTIONS" ->
  exists (r : Response) (props : list (string * JsValue)),
    fetch request env now = Normal r /\
    body r = Some (JSON_stringify (JObj props)) /\
    Headers_get "Content-Type" (headers r) = Some "application/json".
Proof.
  intros Hm. unfold fetch. rewrite (method_is_not_options _ Hm). unfold route.
  destruct (String.eqb (pathname (url request)) "/");
    [| destruct (String.eqb (pathname (url request)) "/health")].
  - rewrite (new_Response_json _ None) by (simpl; auto).
    eexists _, _. split; [reflexivity |]. split; reflexivity.
  - rewrite (new_Response_json _ None) by (simpl; auto).
    eexists _, _. split; [reflexivity |]. split; reflexivity.
  - rewrite (new_Response_json _ (Some 404)) by (simpl; auto).
    eexists _, _. split; [reflexivity |]. split; reflexivity.
Qed.

Lemma fetch_answers_json_witness :
  exists (r : Response) (props : list (string * JsValue)),
    fetch {| method := "PUT";
             url := {| href := "https://lounge.example/health/"; pathname := "/health/" |};
             json := None |}
          {| ENVIRONMENT := None |} 0 = Normal r /\
    body r = Some (JSON_stringify (JObj props)) /\
    Headers_get "Content-Type" (headers r) = Some "application/json".
Proof. apply fetch_answers_json. discriminate. Defined.

(** X3. The health route reports the time it was asked at and the configured
    environment; when [ENVIRONMENT] is not set, or set to the empty string, it
    reports [development]: the field is never empty. *)
Theorem fetch_health_environment (request : Request) (env : Env) (now : Z) :
  method request <> "OPTIONS" ->
  pathname (url request) = "/health" ->
  exists (r : Response) (props : list (string * JsValue)) (name : string),
    fetch request env now = Normal r /\
    status r = 200 /\
    body r = Some (JSON_stringify (JObj props)) /\
    obj_get "timestamp" props = Some (JStr (Date_toISOString now)) /\
    obj_get "environment" props = Some (JStr name) /\
    name <> "" /\
    (forall configured, ENVIRONMENT env = Some configured -> configured <> "" -> name = configured) /\
    (ENVIRONMENT env = None \/ ENVIRONMENT env = Some "" -> name = "development").
Proof.
  intros Hm Hpath. unfold fetch. rewrite (method_is_not_options _ Hm).
  unfold route. rewrite Hpath. cbn [String.eqb Ascii.eqb Bool.eqb].
  rewrite (new_Response_json _ None) by (simpl; auto).
  eexists _, _, _. split; [reflexivity |].
  split; [reflexivity |]. split; [reflexivity |]. split; [reflexivity |].
  split; [reflexivity |].
  unfold or_else. destruct (ENVIRONMENT env) as [configured |].
  - destruct (String.eqb configured "") eqn:Hempty.
    + apply String.eqb_eq in Hempty. subst configured.
      split; [discriminate |]. split; [intros c [= <-] Hne; contradiction | reflexivity].
    + apply String.eqb_neq in Hempty.
      split; [exact Hempty |].
      split; [intros c [= <-] _; reflexivity |].
      intros [Hnone | Hsome]; [discriminate Hnone | injection Hsome as ->; contradiction].
  - split; [discriminate |]. split; [intros c Hsome; discriminate Hsome | reflexivity].
Qed.

Lemma fetch_health_environment_witness :
  exists (r : Response) (props : list (string * JsValue)) (name : string),
    fetch {| method := "GET";
             url := {| href := "https://lounge.example/health"; pathname := "/health" |};
             json := None |}
          {| ENVIRONMENT := Some "" |} 1700000000000 = Normal r /\
    status r = 200 /\
    body r = Some (JSON_stringify (JObj props)) /\
    obj_get "timestamp" props = Some (JStr (Date_toISOString 1700000000000)) /\
    obj_get "environment" props = Some (JStr name) /\
    name <> "" /\
    (forall configured, Some "" = Some configured -> configured <> "" -> name = configured) /\
    (Some "" = None \/ Some "" = Some "" -> name = "development").
Proof.
  apply (fetch_health_environment
           {| method := "GET";
              url := {| href := "https://lounge.example/health"; pathname := "/health" |};
              json := None |}
           {| ENVIRONMENT := Some "" |});
    [discriminate | reflexivity].
Defined.

End WorkerRouting.

Section AgentManagerRouting.
Import Js Http AgentManager.

Lemma new_Response_text (text : string) (st : Z) :
  In st [404; 405] ->
  new_Response (Some text) {| init_status := Some st; init_headers := [] |} =
  Normal {| status := st; body := Some text;
            headers := [("content-type", "text/plain;charset=UTF-8")] |}.
Proof.
  intros Hst. simpl in Hst. destruct Hst as [<- | [<- | []]]; reflexivity.
Qed.

(** What [fetch] comes to, case by case: the method decides first, the path
    second. *)
Lemma agentManager_fetch_cases (request : Request) (t_now t_date : Z) :
  fetch request t_now t_date =
  if String.eqb (method request) "GET" then
    if String.eqb (pathname (url request)) "/agents" then
      Normal {| status := 200;
                body := Some (JSON_stringify (JObj [("agents", JArr []); ("total", JNum 0%float)]));
                headers := [("content-type", "application/json")] |}
    else
      Normal {| status := 404; body := Some "Not found";
                headers := [("content-type", "text/plain;charset=UTF-8")] |}
  else if String.eqb (method request) "POST" then
    if String.eqb (pathname (url request)) "/agents" then createAgent request t_now t_date
    else
      Normal {| status := 404; body := Some "Not found";
                headers := [("content-type", "text/plain;charset=UTF-8")] |}
  else
    Normal {| status := 405; body := Some "Method not allowed";
              headers := [("content-type", "text/plain;charset=UTF-8")] |}.
Proof.
  unfold fetch, dispatch.
  rewrite (new_Response_text "Not found" 404) by (simpl; auto).
  rewrite (new_Response_text "Method not allowed" 405) by (simpl; auto).
  destruct (String.eqb (method request) "GET");
    [| destruct (String.eqb (method request) "POST")];
    try destruct (String.eqb (pathname (url request)) "/agents");
    reflexivity.
Qed.

Lemma createAgent_cases (request : Request) (t_now t_date : Z) :
  (exists config,
     json request = Some config /\
     createAgent request t_now t_date =
     Normal {| status := 201;
               body := Some (JSON_stringify (createAgent_payload config t_now t_date));
               headers := [("content-type", "application/json")] |})
  \/ (json request = None /\
      exists message, createAgent request t_now t_date = Throw (ThrownError "SyntaxError" message)).
Proof.
  destruct (json request) as [config |] eqn:Hjson.
  - left. exists config. split; [reflexivity |]. exact (createAgent_parsed _ _ _ _ Hjson).
  - right. split; [reflexivity |]. unfold createAgent, request_json. rewrite Hjson.
    eexists. reflexivity.
Qed.

(** X4. The AgentManager decides by the method before it looks at the path: any
    method other than GET and POST is answered 405, also on [/agents] and on
    paths that do not exist; GET and POST on any path but [/agents] are answered
    404; both as plain text. *)
Theorem agentManager_method_before_path (request : Request) (t_now t_date : Z) :
  (method request <> "GET" ->
   method request <> "POST" ->
   fetch request t_now t_date =
   Normal {| status := 405; body := Some "Method not allowed";
             headers := [("content-type", "text/plain;charset=UTF-8")] |})
  /\ (method request = "GET" \/ method request = "POST" ->
      pathname (url request) <> "/agents" ->
      fetch request t_now t_date =
      Normal {| status := 404; body := Some "Not found";
                headers := [("content-type", "text/plain;charset=UTF-8")] |}).
Proof.
  rewrite agentManager_fetch_cases. split.
  - intros Hget Hpost.
    apply String.eqb_neq in Hget. apply String.eqb_neq in Hpost.
    rewrite Hget, Hpost. reflexivity.
  - intros Hmethod Hpath. apply String.eqb_neq in Hpath. rewrite Hpath.
    destruct Hmethod as [-> | ->]; reflexivity.
Qed.

Lemma agentManager_method_before_path_witness :
  fetch {| method := "DELETE";
           url := {| href := "https://do.internal/agents"; pathname := "/agents" |};
           json := None |} 0 0
  = Normal {| status := 405; body := Some "Method not allowed";
              headers := [("content-type", "text/plain;charset=UTF-8")] |}
  /\ fetch {| method := "POST";
              url := {| href := "https://do.internal/agents/"; pathname := "/agents/" |};
              json := Some JNull |} 0 0
     = Normal {| status := 404; body := Some "Not found";
                 headers := [("content-type", "text/plain;charset=UTF-8")] |}.
Proof.
  split.
  - apply (proj1 (agentManager_method_before_path
                    {| method := "DELETE";
                       url := {| href := "https://do.internal/agents"; pathname := "/agents" |};
                       json := None |} 0 0)); discriminate.
  - apply (proj2 (agentManager_method_before_path
                    {| method := "POST";
                       url := {| href := "https://do.internal/agents/"; pathname := "/agents/" |};
                       json := Some JNull |} 0 0)); [right; reflexivity | discriminate].
Defined.

(** X5. The AgentManager's [fetch] fails in one case only: a POST to [/agents]
    whose body is not JSON rejects the returned promise with the [SyntaxError] of
    [request.json()]. Its [catch] block never answers: no request gets status
    500, every answer is 200, 201, 404 or 405. *)
Theorem agentManager_fails_only_on_bad_json (request : Request) (t_now t_date : Z) :
  ((exists thrown, fetch request t_now t_date = Throw thrown) <->
   (method request = "POST" /\ pathname (url request) = "/agents" /\ json request = None))
  /\ (forall thrown, fetch request t_now t_date = Throw thrown ->
        exists message, thrown = ThrownError "SyntaxError" message)
  /\ (forall r, fetch request t_now t_date = Normal r -> In (status r) [200; 201; 404; 405]).
Proof.
  rewrite agentManager_fetch_cases.
  destruct (String.eqb (method request) "GET") eqn:Hget.
  - apply String.eqb_eq in Hget.
    assert (Hnot_post : method request <> "POST") by (rewrite Hget; discriminate).
    destruct (String.eqb (pathname (url request)) "/agents");
      (split; [split; [intros [t Ht]; discriminate Ht | intros [Hpost _]; contradiction] |];
       split; [intros t Ht; discriminate Ht | intros r [= <-]; simpl; auto]).
  - destruct (String.eqb (method request) "POST") eqn:Hpost.
    + apply String.eqb_eq in Hpost.
      destruct (String.eqb (pathname (url request)) "/agents") eqn:Hpath.
      * apply String.eqb_eq in Hpath.
        destruct (createAgent_cases request t_now t_date)
          as [(config & Hjson & ->) | (Hjson & message & ->)].
        -- split; [split; [intros [t Ht]; discriminate Ht |
                           intros (_ & _ & Hnone); rewrite Hjson in Hnone; discriminate Hnone] |].
           split; [intros t Ht; discriminate Ht | intros r [= <-]; simpl; auto].
        -- split; [split; [intros _; auto | intros _; eexists; reflexivity] |].
           split; [intros t [= <-]; eexists; reflexivity | intros r Hr; discriminate Hr].
      * apply String.eqb_neq in Hpath.
        split; [split; [intros [t Ht]; discriminate Ht | intros (_ & Hp & _); contradiction] |].
        split; [intros t Ht; discriminate Ht | intros r [= <-]; simpl; auto].
    + apply String.eqb_neq in Hpost.
      split; [split; [intros [t Ht]; discriminate Ht | intros (Hp & _); contradiction] |].
      split; [intros t Ht; discriminate Ht | intros r [= <-]; simpl; auto].
Qed.

Lemma agentManager_fails_only_on_bad_json_witness :
  let request :=
    {| method := "POST";
       url := {| href := "https://do.internal/agents"; pathname := "/agents" |};
       json := None |} in
  exists thrown, fetch request 1700000000000 1700000000000 = Throw thrown.
Proof.
  intros request.
  apply (proj2 (proj1 (agentManager_fails_only_on_bad_json request 1700000000000 1700000000000))).
  repeat split.
Defined.

(** X6. No response of the AgentManager carries a CORS header: its only header
    is the content type. *)
Theorem agentManager_sends_no_cors (request : Request) (t_now t_date : Z) (r : Response) :
  fetch request t_now t_date = Normal r ->
  (exists contentType, headers r = [("content-type", contentType)]) /\
  Headers_get "Access-Control-Allow-Origin" (headers r) = None.
Proof.
  rewrite agentManager_fetch_cases. intros Hr.
  assert (Hheaders : exists contentType, headers r = [("content-type", contentType)]).
  { destruct (String.eqb (method request) "GET");
      [| destruct (String.eqb (method request) "POST")];
      try destruct (String.eqb (pathname (url request)) "/agents");
      try (injection Hr as <-; eexists; reflexivity).
    destruct (createAgent_cases request t_now t_date)
      as [(config & _ & Hc) | (_ & message & Hc)]; rewrite Hc in Hr.
    - injection Hr as <-. eexists. reflexivity.
    - discriminate Hr. }
  split; [exact Hheaders |].
  destruct Hheaders as [contentType ->]. reflexivity.
Qed.

Lemma agentManager_sends_no_cors_witness :
  let request :=
    {| method := "GET";
       url := {| href := "https://do.internal/agents"; pathname := "/agents" |};
       json := None |} in
  exists r,
    fetch request 0 0 = Normal r /\
    (exists contentType, headers r = [("content-type", contentType)]) /\
    Headers_get "Access-Control-Allow-Origin" (headers r) = None.
Proof.
  intros request. eexists. split; [reflexivity |].
  apply (agentManager_sends_no_cors request 0 0). reflexivity.
Defined.

Lemma Z_to_decimal_inj (a b : Z) : Z_to_decimal a = Z_to_decimal b -> a = b.
Proof.
  unfold Z_to_decimal. intros Heq.
  assert (Hparse : forall z, NilZero.int_of_string (NilZero.string_of_int (Z.to_int z))
                             = Some (Z.to_int z)).
  { intros z. apply NilZero.isi; destruct z as [| p | p]; simpl; try discriminate;
      intros [= Hnil]; exact (DecimalPos.Unsigned.to_uint_nonnil p Hnil). }
  apply (f_equal NilZero.int_of_string) in Heq. rewrite !Hparse in Heq.
  injection Heq as Heq. exact (DecimalZ.to_int_inj _ _ Heq).
Qed.

(** X7. The [agentId] of a created agent identifies the millisecond [Date.now()]
    read and nothing else: two creations get the same id exactly when they read
    the same time value, whatever their configurations. *)
Theorem agentId_identifies_the_millisecond (c1 c2 : JsValue) (t1 t2 d1 d2 : Z) :
  agentIdOf (createAgent_payload c1 t1 d1) = agentIdOf (createAgent_payload c2 t2 d2)
  <-> t1 = t2.
Proof.
  simpl. split.
  - intros [= Heq]. exact (Z_to_decimal_inj _ _ Heq).
  - intros ->. reflexivity.
Qed.

Lemma agentId_identifies_the_millisecond_witness :
  agentIdOf (createAgent_payload (JStr "first") 1700000000000 1700000000000)
  = agentIdOf (createAgent_payload (JStr "second") 1700000000000 1700000000001)
  /\ agentIdOf (createAgent_payload JNull 1700000000000 1700000000000)
     <> agentIdOf (createAgent_payload JNull 1700000000001 1700000000000).
Proof.
  split.
  - apply (proj2 (agentId_identifies_the_millisecond (JStr "first") (JStr "second")
                    1700000000000 1700000000000 1700000000000 1700000000001)).
    reflexivity.
  - intros Heq.
    apply (proj1 (agentId_identifies_the_millisecond JNull JNull
                    1700000000000 1700000000001 1700000000000 1700000000000)) in Heq.
    discriminate Heq.
Defined.

End AgentManagerRouting.

Section WorkerAndAgentManager.
Import Js Http.

(** X8. The Worker never hands a request to the AgentManager: a POST to
    [/agents] that the AgentManager would answer 201 is answered 404 by the
    Worker's [fetch]. *)
Theorem worker_does_not_reach_createAgent (request : Request) (config : JsValue)
    (env : Worker.Env) (now t_date : Z) :
  method request = "POST" ->
  pathname (url request) = "/agents" ->
  json request = Some config ->
  (exists r, AgentManager.fetch request now t_date = Normal r /\ status r = 201) /\
  (exists r, Worker.fetch request env now = Normal r /\
             status r = 404 /\
             body r = Some (JSON_stringify
                              (JObj [ ("error", JStr "Not Found");
                                      ("message", JStr "Route /agents not found") ]))).
Proof.
  intros Hm Hp Hjson. split.
  - rewrite agentManager_fetch_cases, Hm, Hp. cbn [String.eqb Ascii.eqb Bool.eqb].
    rewrite (createAgent_parsed _ _ _ _ Hjson). eexists. split; reflexivity.
  - unfold Worker.fetch, Worker.route. rewrite Hm, Hp. cbn [String.eqb Ascii.eqb Bool.eqb].
    rewrite (new_Response_json _ (Some 404)) by (simpl; auto).
    eexists. split; [reflexivity |]. split; reflexivity.
Qed.

Lemma worker_does_not_reach_createAgent_witness :
  let request :=
    {| method := "POST";
       url := {| href := "https://lounge.example/agents"; pathname := "/agents" |};
       json := Some (JObj [("skillLevel", JStr "intermediate")]) |} in
  (exists r, AgentManager.fetch request 1700000000000 1700000000000 = Normal r /\ status r = 201) /\
  (exists r, Worker.fetch request {| Worker.ENVIRONMENT := Some "production" |} 1700000000000
             = Normal r /\
             status r = 404 /\
             body r = Some (JSON_stringify
                              (JObj [ ("error", JStr "Not Found");
                                      ("message", JStr "Route /agents not found") ]))).
Proof.
  intros request.
  apply (worker_does_not_reach_createAgent request (JObj [("skillLevel", JStr "intermediate")]));
    reflexivity.
Defined.

End WorkerAndAgentManager.

Section MatcherProperties.
Import Js TestSetup.

Lemma includes_spec (l : list string) (x : Value) :
  includes l x = true <-> exists a, x = VStr a /\ In a l.
Proof.
  unfold includes. split.
  - destruct x as [| | | | a | | |]; try discriminate.
    intros Hex. apply existsb_exists in Hex as (b & Hin & Heq).
    apply String.eqb_eq in Heq. subst b. exists a. split; [reflexivity | exact Hin].
  - intros (a & -> & Hin). apply existsb_exists. exists a.
    split; [exact Hin | apply String.eqb_refl].
Qed.

(** What [pass] is of an object that is not callable. *)
Lemma pass_object (get : string -> Value) :
  pass (VObject false get) =
  VBool (includes validActions (get "action")
         && String.eqb (typeof (get "confidence")) "number"
         && number_ge (get "confidence") 0
         && number_le (get "confidence") 1).
Proof.
  unfold pass. simpl.
  destruct (includes validActions (get "action")); simpl; [| reflexivity].
  destruct (String.eqb (typeof (get "confidence")) "number"); simpl; [| reflexivity].
  destruct (number_ge (get "confidence") 0); reflexivity.
Qed.

(** What is not an object that is not callable does not pass. *)
Lemma passes_object_only (received : Value) :
  passes received = true -> exists get, received = VObject false get.
Proof.
  unfold passes, pass.
  destruct received as [| | b | x | str | z | description | callable get];
    try discriminate.
  - destruct b; discriminate.
  - destruct (truthy (VNum x)) eqn:Htruthy; [simpl; discriminate |].
    cbn [negb]. rewrite Htruthy. discriminate.
  - destruct (truthy (VStr str)) eqn:Htruthy; [simpl; discriminate |].
    cbn [negb]. rewrite Htruthy. discriminate.
  - destruct (truthy (VBigInt z)) eqn:Htruthy; [simpl; discriminate |].
    cbn [negb]. rewrite Htruthy. discriminate.
  - destruct callable; [discriminate |]. intros _. exists get. reflexivity.
Qed.

(** X9. [toBeValidDecision] passes exactly the objects, arrays among them but
    functions not, of which [action] reads as one of the five action names and
    [confidence] as a number between 0 and 1, own or inherited: [undefined],
    [null] and the primitives never pass, nor does a missing or misspelt action,
    nor a confidence that is missing, a string, or NaN. *)
Theorem toBeValidDecision_passes_iff (received : Value) :
  passes received = true <->
  exists (get : string -> Value) (a : string) (c : float),
    received = VObject false get /\
    get "action" = VStr a /\
    In a validActions /\
    get "confidence" = VNum c /\
    PrimFloat.leb 0 c = true /\
    PrimFloat.leb c 1 = true.
Proof.
  split.
  - intros Hpass. destruct (passes_object_only received Hpass) as (get & ->).
    unfold passes in Hpass. rewrite pass_object in Hpass. simpl in Hpass.
    apply andb_prop in Hpass as [Hpass Hle].
    apply andb_prop in Hpass as [Hpass Hge].
    apply andb_prop in Hpass as [Hinc Hnum].
    apply includes_spec in Hinc as (a & Haction & Hin).
    destruct (get "confidence") as [| | | c | | | |] eqn:Hconfidence; try discriminate.
    exists get, a, c.
    split; [reflexivity |]. split; [exact Haction |]. split; [exact Hin |].
    split; [exact Hconfidence |]. split; [exact Hge | exact Hle].
  - intros (get & a & c & -> & Haction & Hin & Hconfidence & Hge & Hle).
    unfold passes. rewrite pass_object, Haction, Hconfidence. simpl.
    rewrite Hge, Hle.
    assert (Hinc : includes validActions (VStr a) = true)
      by (apply includes_spec; eauto).
    simpl in Hinc. rewrite Hinc. reflexivity.
Qed.

(** A decision, an array that carries the two properties and an object that
    inherits them pass; a function that carries them does not. *)
Lemma toBeValidDecision_passes_iff_witness :
  passes raiseDecision = true
  /\ passes arrayWithFields = true
  /\ passes inheritingDecision = true
  /\ ~ (exists (get : string -> Value) (a : string) (c : float),
          VObject true (fun key =>
            if String.eqb key "action" then VStr "call"
            else if String.eqb key "confidence" then VNum 0.7%float
            else VUndefined)
          = VObject false get /\
          get "action" = VStr a /\
          In a validActions /\
          get "confidence" = VNum c /\
          PrimFloat.leb 0 c = true /\
          PrimFloat.leb c 1 = true).
Proof.
  split; [| split; [| split]].
  - apply (proj2 (toBeValidDecision_passes_iff raiseDecision)).
    eexists _, "raise", 0.5%float.
    split; [reflexivity |]. repeat split. simpl. tauto.
  - apply (proj2 (toBeValidDecision_passes_iff arrayWithFields)).
    eexists _, "fold", 1%float.
    split; [reflexivity |]. repeat split. simpl. tauto.
  - apply (proj2 (toBeValidDecision_passes_iff inheritingDecision)).
    eexists _, "call", 0.7%float.
    split; [reflexivity |]. repeat split. simpl. tauto.
  - intros Hshape.
    apply (proj2 (toBeValidDecision_passes_iff _)) in Hshape.
    discriminate Hshape.
Defined.

(** X10. The matcher's verdict rests on what [action] and [confidence] read as,
    and on nothing else of an object: two objects of which these two read alike
    get the same verdict, whatever else ([amount], [reasoning], [thinkingTime],
    elements of an array, ...) they hold. *)
Theorem toBeValidDecision_ignores_other_properties (get1 get2 : string -> Value) :
  get1 "action" = get2 "action" ->
  get1 "confidence" = get2 "confidence" ->
  pass (VObject false get1) = pass (VObject false get2).
Proof.
  intros Haction Hconfidence. rewrite !pass_object, Haction, Hconfidence. reflexivity.
Qed.

(** The decision with its amount, and the same with [amount: 'a lot'] and a
    [reasoning]. *)
Lemma toBeValidDecision_ignores_other_properties_witness :
  let get1 key :=
    match obj_get key [ ("action", VStr "raise"); ("amount", VNum 300%float);
                        ("confidence", VNum 0.5%float) ] with
    | Some v => v
    | None => VUndefined
    end in
  let get2 key :=
    match obj_get key [ ("action", VStr "raise"); ("amount", VStr "a lot");
                        ("confidence", VNum 0.5%float);
                        ("reasoning", VStr "Strong hand in position") ] with
    | Some v => v
    | None => VUndefined
    end in
  pass (VObject false get1) = pass (VObject false get2)
  /\ pass (VObject false get1) = VBool true.
Proof.
  intros get1 get2. split; [| reflexivity].
  apply toBeValidDecision_ignores_other_properties; reflexivity.
Defined.

End MatcherProperties.

Section ZeroPot.
Import Js Normalizer.
Context `{Helpers}.

Lemma ten_is_finite : Prim2SF 10%float = S754_finite false 5629499534213120 (-49).
Proof. reflexivity. Qed.

Lemma div_by_zero_nonfinite (x y : float) (sign : bool) :
  Prim2SF y = S754_zero sign -> nonfinite (x / y).
Proof.
  intros Hy. unfold nonfinite. rewrite div_spec, Hy. unfold SF64div.
  destruct (Prim2SF x) as [sx | sx | | sx m e]; simpl; eauto.
Qed.

Lemma nonfinite_times_ten (x : float) : nonfinite x -> nonfinite (x * 10).
Proof.
  unfold nonfinite. rewrite mul_spec, ten_is_finite. unfold SF64mul.
  intros [-> | [sign ->]]; simpl; eauto.
Qed.

Lemma nonfinite_over_ten (x : float) : nonfinite x -> nonfinite (x / 10).
Proof.
  unfold nonfinite. rewrite div_spec, ten_is_finite. unfold SF64div.
  intros [-> | [sign ->]]; simpl; eauto.
Qed.

Lemma Math_round_nonfinite (x : float) : nonfinite x -> Math_round x = x.
Proof. unfold Math_round. intros [-> | [sign ->]]; reflexivity. Qed.

Lemma nonfinite_not_finite (x : float) : nonfinite x -> Number_isFinite x = false.
Proof. unfold Number_isFinite. intros [-> | [sign ->]]; reflexivity. Qed.

Lemma potOdds_of_zero_pot (gameState : GameState) (sign : bool) :
  Prim2SF (pot gameState) = S754_zero sign ->
  Number_isFinite (potOdds (normalize gameState)) = false.
Proof.
  intros Hpot. apply nonfinite_not_finite. unfold normalize, potOddsTenths. simpl.
  apply nonfinite_over_ten.
  assert (Hodds : nonfinite (toCall gameState / pot gameState * 10))
    by (apply nonfinite_times_ten; exact (div_by_zero_nonfinite _ _ _ Hpot)).
  rewrite (Math_round_nonfinite _ Hodds). exact Hodds.
Qed.

Lemma stringify_features (features : NormalizedFeatures) :
  JSON_stringify (features_object features) =
  "{" +:+
  join ","
    [ QuoteJSONString "handStrength" +:+ ":" +:+ JSON_stringify (handStrength features);
      QuoteJSONString "potOdds" +:+ ":" +:+
        (if Number_isFinite (potOdds features) then Number_toString (potOdds features)
         else "null");
      QuoteJSONString "position" +:+ ":" +:+
        QuoteJSONString (Position_name (featurePosition features));
      QuoteJSONString "streetBettingPattern" +:+ ":" +:+
        JSON_stringify (streetBettingPattern features);
      QuoteJSONString "stackDepth" +:+ ":" +:+ JSON_stringify (stackDepth features) ]
  +:+ "}".
Proof. reflexivity. Qed.

(** X11. With a pot of zero the division [toCall / pot] gives Infinity or NaN,
    which [JSON.stringify] writes as [null]: the cache key no longer depends on
    the amount to call. Two such game states that agree on the cards, the
    position, the betting history and the stack depth get the same key. *)
Theorem generateCacheKey_zero_pot (s1 s2 : GameState) :
  pot s1 = 0%float ->
  pot s2 = 0%float ->
  hand s1 = hand s2 ->
  communityCards s1 = communityCards s2 ->
  position s1 = position s2 ->
  bettingHistory s1 = bettingHistory s2 ->
  (stackSize s1 / big (blindLevel s1))%float = (stackSize s2 / big (blindLevel s2))%float ->
  generateCacheKey s1 = generateCacheKey s2.
Proof.
  intros Hpot1 Hpot2 Hhand Hboard Hpos Hhist Hdepth.
  unfold generateCacheKey, fingerprint. f_equal.
  rewrite !stringify_features.
  rewrite (potOdds_of_zero_pot s1 false) by (rewrite Hpot1; reflexivity).
  rewrite (potOdds_of_zero_pot s2 false) by (rewrite Hpot2; reflexivity).
  unfold normalize. simpl. rewrite Hhand, Hboard, Hpos, Hhist, Hdepth. reflexivity.
Qed.

End ZeroPot.

Section ZeroPotExample.
Import Js Normalizer.
Local Open Scope float_scope.

(** A free check and a call of 1000 into an empty pot. *)
Lemma generateCacheKey_zero_pot_witness :
  let check :=
    {| hand := []; communityCards := []; pot := 0; toCall := 0; position := BB;
       players := []; bettingHistory := []; stackSize := 1000;
       blindLevel := {| small := 25; big := 50 |} |} in
  let call :=
    {| hand := []; communityCards := []; pot := 0; toCall := 1000; position := BB;
       players := []; bettingHistory := []; stackSize := 1000;
       blindLevel := {| small := 25; big := 50 |} |} in
  @normalize sampleHelpers check <> @normalize sampleHelpers call /\
  @generateCacheKey sampleHelpers check = @generateCacheKey sampleHelpers call.
Proof.
  intros check call. split.
  - intros Heq. apply (f_equal (fun f => Prim2SF (potOdds f))) in Heq.
    vm_compute in Heq. discriminate Heq.
  - apply (@generateCacheKey_zero_pot sampleHelpers check call); reflexivity.
Defined.

End ZeroPotExample.

Section ReconnectProperties.
Import PrimoPokerConnection.

(** X12. The reconnection delay computed from [reconnectAttempts] is one second
    doubled that many times below five attempts and thirty seconds from five on:
    always between one and thirty seconds, and never smaller for a larger count. *)
Theorem reconnectDelay_backoff (attempts : nat) :
  1000 <= reconnectDelay attempts <= 30000 /\
  reconnectDelay attempts <= reconnectDelay (S attempts) /\
  reconnectDelay attempts =
    (if (attempts <? 5)%nat then 1000 * 2 ^ Z.of_nat attempts else 30000).
Proof.
  unfold reconnectDelay.
  assert (Hpos : 1 <= 2 ^ Z.of_nat attempts)
    by (apply (Z.pow_le_mono_r 2 0 (Z.of_nat attempts)); lia).
  assert (Hnext : 2 ^ Z.of_nat (S attempts) = 2 * 2 ^ Z.of_nat attempts)
    by (rewrite Nat2Z.inj_succ, Z.pow_succ_r by lia; reflexivity).
  rewrite Hnext.
  split; [lia |]. split; [lia |].
  destruct (attempts <? 5)%nat eqn:Hlt.
  - apply Nat.ltb_lt in Hlt.
    assert (Hsmall : 2 ^ Z.of_nat attempts <= 2 ^ 4)
      by (apply Z.pow_le_mono_r; lia).
    change (2 ^ 4) with 16 in Hsmall. lia.
  - apply Nat.ltb_ge in Hlt.
    assert (Hbig : 2 ^ 5 <= 2 ^ Z.of_nat attempts)
      by (apply Z.pow_le_mono_r; lia).
    change (2 ^ 5) with 32 in Hbig. lia.
Qed.

End ReconnectProperties.
